(** * The resilient data-access layer of the marketing dashboard

    A shallow embedding of [src/services/api.ts] and
    [src/services/targetingIntel.ts]: the read operations that fall back to
    static data, the single write operation and the two health probes,
    together with the data handlers of the two components that call them
    ([src/components/AdSurveillance.tsx], [src/components/TargetingIntel.tsx]).

    Rows coming from the store are dynamically typed ([any] in the source),
    so they are embedded as JSON-like values with the JavaScript operators
    the two modules apply to them ([!], [||], [??], [?.], member access).
    Every operation is asynchronous code inside [try]/[catch]; it is
    embedded in a state-and-exception monad over a world that holds the
    store, the system clock and the log of gateway calls.  Console output is
    the only effect left out: nothing in the two modules reads it back. *)

From Stdlib Require Import String Ascii List Bool Arith ZArith QArith Lia.
Import ListNotations.
Close Scope Q_scope.
Local Open Scope string_scope.
Set Warnings "-register-all,-abstract-large-number".

(* ===================================================================== *)
(** ** JavaScript values *)
(* ===================================================================== *)

Module Js.

(** Objects keep their fields in insertion order; a lookup reads the first
    binding of the key. *)
Inductive JsVal : Type :=
| JUndefined
| JNull
| JBool (b : bool)
| JNum (q : Q)
| JStr (s : string)
| JArr (items : list JsVal)
| JObj (fields : list (string * JsVal)).

(** [!!v] *)
Definition truthy (v : JsVal) : bool :=
  match v with
  | JUndefined | JNull => false
  | JBool b => b
  | JNum q => negb (Qeq_bool q 0)
  | JStr s => negb (String.eqb s "")
  | JArr _ | JObj _ => true
  end.

Definition nullish (v : JsVal) : bool :=
  match v with
  | JUndefined | JNull => true
  | _ => false
  end.

(** [a ?? b] *)
Definition nullish_or (a b : JsVal) : JsVal :=
  if nullish a then b else a.

Fixpoint lookup (k : string) (fs : list (string * JsVal)) : JsVal :=
  match fs with
  | [] => JUndefined
  | (k', v) :: rest => if String.eqb k k' then v else lookup k rest
  end.

(** [v.k] on a value that is neither [null] nor [undefined].  None of the
    keys the two modules read is a built-in property of strings, numbers,
    booleans or arrays, so those yield [undefined]. *)
Definition get_prop (k : string) (v : JsVal) : JsVal :=
  match v with
  | JObj fs => lookup k fs
  | _ => JUndefined
  end.

(** [v?.k] *)
Definition opt_prop (k : string) (v : JsVal) : JsVal :=
  if nullish v then JUndefined else get_prop k v.

(** [obj[k] = v] on the field list: an existing key keeps its place. *)
Fixpoint assign (k : string) (v : JsVal) (fs : list (string * JsVal))
  : list (string * JsVal) :=
  match fs with
  | [] => [(k, v)]
  | (k', v') :: rest =>
      if String.eqb k k' then (k, v) :: rest else (k', v') :: assign k v rest
  end.

(** [v.length] *)
Definition js_length (v : JsVal) : JsVal :=
  match v with
  | JArr items => JNum (inject_Z (Z.of_nat (List.length items)))
  | JStr s => JNum (inject_Z (Z.of_nat (String.length s)))
  | JObj fs => lookup "length" fs
  | _ => JUndefined
  end.

(** [v === 0] *)
Definition is_zero (v : JsVal) : bool :=
  match v with
  | JNum q => Qeq_bool q 0
  | _ => false
  end.

(** [v[0]] *)
Definition first_item (v : JsVal) : JsVal :=
  match v with
  | JArr items => nth 0 items JUndefined
  | JStr (String c _) => JStr (String c "")
  | JObj fs => lookup "0" fs
  | _ => JUndefined
  end.

Definition num (z : Z) : JsVal := JNum (inject_Z z).

(** An [Error] object, by its [message]. *)
Definition js_error (msg : string) : JsVal := JObj [("message", JStr msg)].

(** A decimal literal [m / 10^k]. *)
Definition dec (m : Z) (scale : positive) : JsVal := JNum (m # scale).

End Js.
Export Js.

(* ===================================================================== *)
(** ** [Date]: instants and [toISOString] *)
(* ===================================================================== *)

Module DateTime.

(** What [new Date()] yields: a UTC instant, by its calendar fields. *)
Record Instant : Type := mkInstant {
  year : nat;
  month : nat;
  day : nat;
  hour : nat;
  minute : nat;
  second : nat;
  millis : nat
}.

Definition digit (n : nat) : ascii := ascii_of_nat (48 + n mod 10).

Definition pad2 (n : nat) : string :=
  String (digit (n / 10)) (String (digit n) "").

Definition pad3 (n : nat) : string :=
  String (digit (n / 100)) (pad2 n).

Definition pad4 (n : nat) : string :=
  String (digit (n / 1000)) (pad3 n).

Definition pad6 (n : nat) : string :=
  String (digit (n / 100000)) (String (digit (n / 10000)) (pad4 n)).

(** Years past 9999 take the expanded form with a sign and six digits. *)
Definition iso_year (y : nat) : string :=
  if (y <? 10000)%nat then pad4 y else String "+" (pad6 y).

Definition iso_date (t : Instant) : string :=
  iso_year (year t) ++ "-" ++ pad2 (month t) ++ "-" ++ pad2 (day t).

Definition iso_time (t : Instant) : string :=
  pad2 (hour t) ++ ":" ++ pad2 (minute t) ++ ":" ++ pad2 (second t)
  ++ "." ++ pad3 (millis t) ++ "Z".

(** [t.toISOString()] *)
Definition toISOString (t : Instant) : string :=
  iso_date t ++ "T" ++ iso_time t.

(** [s.split(sep)[0]] for a one-character separator. *)
Fixpoint split_head (sep : ascii) (s : string) : string :=
  match s with
  | EmptyString => EmptyString
  | String c rest =>
      if Ascii.eqb c sep then EmptyString else String c (split_head sep rest)
  end.

Definition is_digit (c : ascii) : bool :=
  let n := nat_of_ascii c in ((48 <=? n) && (n <=? 57))%nat.

Fixpoint all_digits (s : string) : bool :=
  match s with
  | EmptyString => true
  | String c rest => is_digit c && all_digits rest
  end.

(** The shape [YYYY-MM-DDTHH:mm:ss.sssZ] of an ISO-8601 UTC timestamp. *)
Definition is_iso8601 (s : string) : bool :=
  (String.length s =? 24)%nat
  && all_digits (substring 0 4 s) && String.eqb (substring 4 1 s) "-"
  && all_digits (substring 5 2 s) && String.eqb (substring 7 1 s) "-"
  && all_digits (substring 8 2 s) && String.eqb (substring 10 1 s) "T"
  && all_digits (substring 11 2 s) && String.eqb (substring 13 1 s) ":"
  && all_digits (substring 14 2 s) && String.eqb (substring 16 1 s) ":"
  && all_digits (substring 17 2 s) && String.eqb (substring 19 1 s) "."
  && all_digits (substring 20 3 s) && String.eqb (substring 23 1 s) "Z".

End DateTime.
Export DateTime.

(* ===================================================================== *)
(** ** The store gateway *)
(* ===================================================================== *)

Module Gateway.

(** The filters of the query builder that the two modules use:
    [.eq(col, v)] and [.ilike(col, pattern)]. *)
Inductive Filter : Type :=
| Eq (column value : string)
| Ilike (column pattern : string).

(** [.order(col, { ascending })] *)
Record Order : Type := mkOrder {
  order_column : string;
  ascending : bool
}.

(** One chain [from(..).select(..)...] as it stands when it is awaited.
    [head_count] is [select(cols, { count: 'exact', head: true })]. *)
Record Query : Type := mkQuery {
  from : string;
  select : string;
  filters : list Filter;
  order : option Order;
  limit : option nat;
  single : bool;
  head_count : bool
}.

(** The error object of a reply; the modules read only its [message]. *)
Record PostgrestError : Type := mkError {
  message : string
}.

(** What an awaited chain resolves to: [{ data, error, count }]. *)
Record Response : Type := mkResponse {
  data : JsVal;
  error : option PostgrestError;
  count : option Z
}.

(** An awaited call either resolves or rejects; what it rejects with is
    any value ([catch (err: any)]), an [Error] object or not. *)
Inductive Outcome (A : Type) : Type :=
| Returned (a : A)
| Threw (err : JsVal).
Arguments Returned {A} a.
Arguments Threw {A} err.

(** A gateway call as recorded in the world's log. *)
Inductive Call : Type :=
| CallQuery (q : Query)
| CallInsert (table : string) (rows : list JsVal).

(** The remote store behind the client handle.  A query reads the store; an
    insert (the chain [insert(rows).select().single()]) may change it. *)
Class Gateway (Store : Type) : Type := {
  run_query : Query -> Store -> Outcome Response;
  run_insert : string -> list JsVal -> Store -> Outcome Response * Store
}.

(** Everything outside the two modules that their code can observe. *)
Record World (Store : Type) : Type := mkWorld {
  client_ready : bool;        (* a client handle was constructed at start *)
  store : Store;
  clock : nat -> Instant;     (* the successive readings of [new Date()] *)
  ticks : nat;                (* how many readings were taken so far *)
  calls : list Call           (* gateway calls issued so far, oldest first *)
}.
Arguments mkWorld {Store}.
Arguments client_ready {Store}.
Arguments store {Store}.
Arguments clock {Store}.
Arguments ticks {Store}.
Arguments calls {Store}.

(** Asynchronous code: it runs against a world and returns or throws. *)
Definition Async (Store A : Type) : Type :=
  World Store -> Outcome A * World Store.

Definition ret {Store A} (a : A) : Async Store A :=
  fun w => (Returned a, w).

Definition throw {Store A} (err : JsVal) : Async Store A :=
  fun w => (Threw err, w).

Definition bind {Store A B} (m : Async Store A) (k : A -> Async Store B)
  : Async Store B :=
  fun w =>
    match m w with
    | (Returned a, w') => k a w'
    | (Threw err, w') => (Threw err, w')
    end.

(** [try { body } catch (err) { handler(err) }] *)
Definition try_catch {Store A} (body : Async Store A)
  (handler : JsVal -> Async Store A) : Async Store A :=
  fun w =>
    match body w with
    | (Returned a, w') => (Returned a, w')
    | (Threw err, w') => handler err w'
    end.

Declare Scope async_scope.
Delimit Scope async_scope with async.
Notation "x <- m ;; k" := (bind m (fun x => k))
  (at level 61, m at next level, right associativity) : async_scope.

(** Modelled from the spec: [isSupabaseConnected] of [./supabase], which is
    not among the sources.  It is pure and synchronous and reflects whether a
    client handle was constructed at process start. *)
Definition isSupabaseConnected {Store} : Async Store bool :=
  fun w => (Returned (client_ready w), w).

(** [new Date()] *)
Definition new_Date {Store} : Async Store Instant :=
  fun w =>
    (Returned (clock w (ticks w)),
     mkWorld (client_ready w) (store w) (clock w) (S (ticks w)) (calls w)).

(** [await supabase!.from(..)...]: one round trip, appended to the log. *)
Definition await_query {Store} {gw : Gateway Store} (q : Query)
  : Async Store Response :=
  fun w =>
    (run_query q (store w),
     mkWorld (client_ready w) (store w) (clock w) (ticks w)
       (calls w ++ [CallQuery q])).

(** [await supabase!.from(t).insert(rows).select().single()] *)
Definition await_insert {Store} {gw : Gateway Store} (table : string)
  (rows : list JsVal) : Async Store Response :=
  fun w =>
    let '(r, st) := run_insert table rows (store w) in
    (r, mkWorld (client_ready w) st (clock w) (ticks w)
          (calls w ++ [CallInsert table rows])).

(** The value a run resolves to. *)
Definition result {Store A} (r : Outcome A * World Store) : Outcome A := fst r.

(** The world a run leaves behind. *)
Definition after {Store A} (r : Outcome A * World Store) : World Store := snd r.

End Gateway.
Export Gateway.
Local Open Scope async_scope.

(* ===================================================================== *)
(** ** The host environment *)
(* ===================================================================== *)

(** What the JavaScript host fixes before any operation runs: the clock
    readings taken while each module was evaluated (they date the fallback
    constants), the locale's date format and the string conversion of
    template literals. *)
Class Host : Type := {
  api_created_at : Instant;
  api_updated_at : Instant;
  targeting_created_at : Instant;
  targeting_updated_at : Instant;
  toLocaleDateString : JsVal -> string;   (* [new Date(v).toLocaleDateString()] *)
  ToString : JsVal -> string              (* [`${v}`] *)
}.

(** Helpers shared by both modules. *)
Module Common.
Section Common.
Context {Store : Type}.

(** [v.k], a [TypeError] when [v] is [null] or [undefined]. *)
Definition member (k : string) (v : JsVal) : Async Store JsVal :=
  if nullish v
  then throw (js_error "Cannot read properties of null or undefined")
  else ret (get_prop k v).

(** [items.map(f)] with a callback that may throw. *)
Fixpoint map_async {A B} (f : A -> Async Store B) (items : list A)
  : Async Store (list B) :=
  match items with
  | [] => ret []
  | x :: rest =>
      y <- f x ;;
      ys <- map_async f rest ;;
      ret (y :: ys)
  end.

(** [v.map(f)]: only arrays have [map]. *)
Definition js_map {B} (f : JsVal -> Async Store B) (v : JsVal)
  : Async Store (list B) :=
  match v with
  | JArr items => map_async f items
  | _ => throw (js_error "map is not a function")
  end.

(** [count || 0] *)
Definition count_or_zero (c : option Z) : Z :=
  match c with
  | Some n => if (n =? 0)%Z then 0%Z else n
  | None => 0%Z
  end.

(** [select('*', { count: 'exact', head: true })] on a table. *)
Definition count_query (table : string) : Query :=
  {| from := table; select := "*"; filters := []; order := None;
     limit := None; single := false; head_count := true |}.

Definition is_error (r : Response) : bool :=
  match Gateway.error r with
  | Some _ => true
  | None => false
  end.

End Common.
End Common.
Export Common.

(* ===================================================================== *)
(** ** [src/services/api.ts] *)
(* ===================================================================== *)

Module Api.

Record AdCardData : Type := mkAdCard {
  id : JsVal;
  date : JsVal;
  competitor_name : JsVal;
  platform : JsVal;
  status : JsVal;
  daily_spend : JsVal;
  daily_impressions : JsVal;
  daily_ctr : JsVal
}.

(** The result of [testDatabaseConnection]. *)
Record DatabaseReport : Type := mkDatabaseReport {
  connected : bool;
  summaryCount : Z;
  dailyCount : Z;
  error : JsVal           (* [undefined] when the report has no [error] *)
}.

Section Api.
Context {Store : Type} {gw : Gateway Store} {host : Host}.

Definition mockSummaryMetrics : JsVal :=
  JObj [
    ("id", JStr "mock-1");
    ("total_competitor_spend", num 124300);
    ("active_campaigns_count", num 1247);
    ("total_impressions", num 12400000);
    ("average_ctr", dec 342 10000);
    ("platform_distribution",
      JObj [ ("Meta", dec 365 10);
             ("Google", dec 313 10);
             ("TikTok", dec 199 10);
             ("LinkedIn", dec 124 10) ]);
    ("top_performers", JArr []);
    ("spend_by_industry", JObj []);
    ("created_at", JStr (toISOString api_created_at));
    ("updated_at", JStr (toISOString api_updated_at))
  ].

Definition mockDailyMetrics : list AdCardData := [].

Definition logConnectionStatus : Async Store bool :=
  connected <- isSupabaseConnected ;;
  ret connected.

Definition summary_query : Query :=
  {| from := "summary_metrics"; select := "*"; filters := [];
     order := Some (mkOrder "created_at" false);
     limit := Some 1; single := false; head_count := false |}.

Definition fetchSummaryMetrics : Async Store JsVal :=
  connected <- logConnectionStatus ;;
  if negb connected then ret mockSummaryMetrics
  else
    try_catch
      (r <- await_query summary_query ;;
       if is_error r || negb (truthy (data r))
          || is_zero (js_length (data r))
       then ret mockSummaryMetrics
       else ret (first_item (data r)))
      (fun _ => ret mockSummaryMetrics).

(** [date || new Date().toISOString().split('T')[0]]: the clock is read
    only when no date, or the empty string, was passed. *)
Definition target_date (date : option string) : Async Store string :=
  match date with
  | Some d =>
      if String.eqb d ""
      then (t <- new_Date ;; ret (split_head "T" (toISOString t)))
      else ret d
  | None => t <- new_Date ;; ret (split_head "T" (toISOString t))
  end.

(** The column list is the source's template string without its blanks,
    which is how the client sends it. *)
Definition daily_query (targetDate : string) : Query :=
  {| from := "daily_metrics";
     select := "id,date,daily_spend,daily_impressions,daily_ctr,competitor:competitor_id(id,name)";
     filters := [Eq "date" targetDate];
     order := Some (mkOrder "daily_spend" false);
     limit := Some 10; single := false; head_count := false |}.

(** The callback of [data.map] in [fetchDailyMetrics]. *)
Definition to_ad_card (row : JsVal) : Async Store AdCardData :=
  row_id <- member "id" row ;;
  row_date <- member "date" row ;;
  competitor <- member "competitor" row ;;
  spend <- member "daily_spend" row ;;
  impressions <- member "daily_impressions" row ;;
  ctr <- member "daily_ctr" row ;;
  ret {| id := row_id;
         date := row_date;
         competitor_name :=
           nullish_or (opt_prop "name" competitor) (JStr "Unknown");
         platform := JStr "Mixed";
         status := JStr "ACTIVE";
         daily_spend := nullish_or spend (num 0);
         daily_impressions := nullish_or impressions (num 0);
         daily_ctr := nullish_or ctr (num 0) |}.

Definition fetchDailyMetrics (date : option string)
  : Async Store (list AdCardData) :=
  connected <- logConnectionStatus ;;
  if negb connected then ret mockDailyMetrics
  else
    targetDate <- target_date date ;;
    try_catch
      (r <- await_query (daily_query targetDate) ;;
       if is_error r || negb (truthy (data r))
       then ret mockDailyMetrics
       else js_map to_ad_card (data r))
      (fun _ => ret mockDailyMetrics).

Definition testDatabaseConnection : Async Store DatabaseReport :=
  connected <- isSupabaseConnected ;;
  if negb connected
  then ret {| connected := false; summaryCount := 0; dailyCount := 0;
              error := JStr "Not connected to Supabase" |}
  else
    try_catch
      (summary <- await_query (count_query "summary_metrics") ;;
       daily <- await_query (count_query "daily_metrics") ;;
       ret {| connected := true;
              summaryCount := count_or_zero (count summary);
              dailyCount := count_or_zero (count daily);
              error := JUndefined |})
      (fun err =>
         err_message <- member "message" err ;;
         ret {| connected := false; summaryCount := 0; dailyCount := 0;
                error := err_message |}).

End Api.
End Api.

(* ===================================================================== *)
(** ** [src/services/targetingIntel.ts] *)
(* ===================================================================== *)

Module TargetingIntel.

(** The result of [testTargetingIntelConnection]. *)
Record TargetingReport : Type := mkTargetingReport {
  connected : bool;
  recordCount : Z;
  latestRecord : option string;
  error : JsVal           (* [undefined] when the report has no [error] *)
}.

Section TargetingIntel.
Context {Store : Type} {gw : Gateway Store} {host : Host}.

Definition geo (spend percentage : Z) : JsVal :=
  JObj [("spend", num spend); ("percentage", num percentage)].

Definition cluster (interest : string) (affinity : Z) (reach : Z) : JsVal :=
  JObj [("interest", JStr interest); ("affinity", dec affinity 100);
        ("reach", num reach)].

Definition stage (label : string) (percentage reach : Z) : JsVal :=
  JObj [("label", JStr label); ("percentage", num percentage);
        ("reach", num reach)].

Definition bid (time : string) (cpc cpm : Z) : JsVal :=
  JObj [("time", JStr time); ("cpc", dec cpc 10); ("cpm", dec cpm 10)].

Definition mockTargetingIntelData : JsVal :=
  JObj [
    ("id", JStr "mock-1");
    ("competitor_id", JStr "11111111-1111-1111-1111-111111111111");
    ("competitor_name", JStr "Nike");
    ("age_distribution",
      JObj [ ("18-24", dec 15 100); ("25-34", dec 35 100);
             ("35-44", dec 28 100); ("45-54", dec 15 100);
             ("55+", dec 7 100) ]);
    ("gender_distribution",
      JObj [ ("male", dec 58 100); ("female", dec 40 100);
             ("other", dec 2 100) ]);
    ("geographic_spend",
      JObj [ ("United States", geo 18200 45);
             ("United Kingdom", geo 8900 22);
             ("Canada", geo 6100 15);
             ("Australia", geo 4000 10);
             ("Germany", geo 3200 8) ]);
    ("interest_clusters",
      JArr [ cluster "Fitness & Running" 95 450000;
             cluster "Athletic Apparel" 88 380000;
             cluster "Health & Wellness" 82 520000;
             cluster "Sports Equipment" 78 290000;
             cluster "Marathon Training" 92 180000;
             cluster "Outdoor Activities" 75 610000 ]);
    ("funnel_stage_prediction",
      JObj [ ("awareness", stage "Cold Traffic" 45 2100000);
             ("consideration", stage "Engagement" 30 1400000);
             ("conversion", stage "Retargeting" 20 940000);
             ("retention", stage "Loyalty" 5 235000) ]);
    ("bidding_strategy",
      JObj [ ("hourly",
               JArr [ bid "12am" 11 82; bid "3am" 9 68; bid "6am" 16 101;
                      bid "9am" 20 124; bid "12pm" 24 142; bid "3pm" 22 135;
                      bid "6pm" 28 156; bid "9pm" 19 113 ]);
             ("avg_cpc", dec 216 100);
             ("peak_cpm",
               JObj [("value", dec 156 10); ("window", JStr "6pm-9pm")]);
             ("best_time", JStr "3am-6am") ]);
    ("advanced_targeting",
      JObj [ ("purchase_intent",
               JObj [("level", JStr "High"); ("confidence", dec 62 100)]);
             ("ai_recommendation",
               JStr "Focus 60% of budget on awareness to fill top funnel. Strong retargeting opportunity observed.");
             ("device_preference",
               JObj [ ("mobile", dec 78 100); ("desktop", dec 22 100);
                      ("ios_share", dec 65 100) ]);
             ("competitor_overlap",
               JObj [ ("brands", dec 32 10);
                      ("description",
                        JStr "Audience overlaps with similar athletic brands") ]) ]);
    ("data_source", JStr "AI_MODELED");
    ("confidence_score", dec 75 100);
    ("created_at", JStr (toISOString targeting_created_at));
    ("updated_at", JStr (toISOString targeting_updated_at))
  ].

Definition logConnectionStatus : Async Store bool :=
  connected <- isSupabaseConnected ;;
  ret connected.

Definition all_query : Query :=
  {| from := "targeting_intel"; select := "*"; filters := [];
     order := Some (mkOrder "created_at" false);
     limit := None; single := false; head_count := false |}.

Definition fetchAllTargetingIntel : Async Store JsVal :=
  connected <- logConnectionStatus ;;
  if negb connected then ret (JArr [mockTargetingIntelData])
  else
    try_catch
      (r <- await_query all_query ;;
       if is_error r then ret (JArr [mockTargetingIntelData])
       else if negb (truthy (data r)) || is_zero (js_length (data r))
       then ret (JArr [mockTargetingIntelData])
       else ret (data r))
      (fun _ => ret (JArr [mockTargetingIntelData])).

(** The tail shared by the three single-record reads: the fallback on an
    error, [null] when there is no data, the record otherwise (its
    [competitor_name] is read for the log line). *)
Definition single_record (r : Response) : Async Store JsVal :=
  if is_error r then ret mockTargetingIntelData
  else if negb (truthy (data r)) then ret JNull
  else (_ <- member "competitor_name" (data r) ;; ret (data r)).

Definition by_id_query (competitorId : string) : Query :=
  {| from := "targeting_intel"; select := "*";
     filters := [Eq "competitor_id" competitorId];
     order := None; limit := None; single := true; head_count := false |}.

Definition fetchTargetingIntelByCompetitorId (competitorId : string)
  : Async Store JsVal :=
  connected <- logConnectionStatus ;;
  if negb connected then ret mockTargetingIntelData
  else
    try_catch
      (r <- await_query (by_id_query competitorId) ;;
       single_record r)
      (fun _ => ret mockTargetingIntelData).

Definition latest_query : Query :=
  {| from := "targeting_intel"; select := "*"; filters := [];
     order := Some (mkOrder "created_at" false);
     limit := Some 1; single := true; head_count := false |}.

Definition fetchLatestTargetingIntel : Async Store JsVal :=
  connected <- logConnectionStatus ;;
  if negb connected then ret mockTargetingIntelData
  else
    try_catch
      (r <- await_query latest_query ;;
       single_record r)
      (fun _ => ret mockTargetingIntelData).

Definition by_name_query (competitorName : string) : Query :=
  {| from := "targeting_intel"; select := "*";
     filters := [Ilike "competitor_name" ("%" ++ competitorName ++ "%")];
     order := Some (mkOrder "created_at" false);
     limit := Some 1; single := true; head_count := false |}.

Definition fetchTargetingIntelByCompetitorName (competitorName : string)
  : Async Store JsVal :=
  connected <- logConnectionStatus ;;
  if negb connected then ret mockTargetingIntelData
  else
    try_catch
      (r <- await_query (by_name_query competitorName) ;;
       single_record r)
      (fun _ => ret mockTargetingIntelData).

(** The object literal [{ ...data, created_at: .., updated_at: .. }]. *)
Definition stamped (input : list (string * JsVal)) (created updated : Instant)
  : JsVal :=
  JObj (assign "updated_at" (JStr (toISOString updated))
         (assign "created_at" (JStr (toISOString created)) input)).

Definition createTargetingIntel (input : list (string * JsVal))
  : Async Store JsVal :=
  connected <- isSupabaseConnected ;;
  if negb connected then ret JNull
  else
    try_catch
      (created <- new_Date ;;
       updated <- new_Date ;;
       r <- await_insert "targeting_intel" [stamped input created updated] ;;
       if is_error r then ret JNull
       else (_ <- member "competitor_name" (data r) ;; ret (data r)))
      (fun _ => ret JNull).

Definition latest_label_query : Query :=
  {| from := "targeting_intel"; select := "competitor_name, created_at";
     filters := [];
     order := Some (mkOrder "created_at" false);
     limit := Some 1; single := true; head_count := false |}.

Definition latest_label (latestData : JsVal) : option string :=
  if truthy latestData
  then Some (ToString (get_prop "competitor_name" latestData) ++ " ("
             ++ toLocaleDateString (get_prop "created_at" latestData) ++ ")")
  else None.

Definition testTargetingIntelConnection : Async Store TargetingReport :=
  connected <- isSupabaseConnected ;;
  if negb connected
  then ret {| connected := false; recordCount := 0; latestRecord := None;
              error := JStr "Not connected to Supabase" |}
  else
    try_catch
      (counted <- await_query (count_query "targeting_intel") ;;
       match Gateway.error counted with
       | Some countError =>
           ret {| connected := false; recordCount := 0; latestRecord := None;
                  error := JStr (message countError) |}
       | None =>
           latest <- await_query latest_label_query ;;
           ret {| connected := true;
                  recordCount := count_or_zero (count counted);
                  latestRecord := latest_label (data latest);
                  error := JUndefined |}
       end)
      (fun err =>
         err_message <- member "message" err ;;
         ret {| connected := false; recordCount := 0; latestRecord := None;
                error := err_message |}).

End TargetingIntel.
End TargetingIntel.

(* ===================================================================== *)
(** ** [src/components/AdSurveillance.tsx]: the data handlers *)
(* ===================================================================== *)

Module AdSurveillance.

Inductive DbStatus : Type := checking | connected | disconnected.

(** The state variables of the component that its data handlers write.
    The state of the competitor form and of the charts is left out: these
    handlers never touch it. *)
Record State : Type := mkState {
  summaryData : JsVal;
  dailyMetrics : list Api.AdCardData;
  loading : bool;
  selectedPeriod : string;
  dbStatus : DbStatus;
  connectionInfo : option Api.DatabaseReport
}.

(** The values passed to [useState]. *)
Definition initial : State :=
  {| summaryData := JNull; dailyMetrics := []; loading := true;
     selectedPeriod := "7d"; dbStatus := checking; connectionInfo := None |}.

Definition setSummaryData (v : JsVal) (s : State) : State :=
  mkState v (dailyMetrics s) (loading s) (selectedPeriod s) (dbStatus s)
    (connectionInfo s).

Definition setDailyMetrics (v : list Api.AdCardData) (s : State) : State :=
  mkState (summaryData s) v (loading s) (selectedPeriod s) (dbStatus s)
    (connectionInfo s).

Definition setLoading (v : bool) (s : State) : State :=
  mkState (summaryData s) (dailyMetrics s) v (selectedPeriod s) (dbStatus s)
    (connectionInfo s).

Definition setDbStatus (v : DbStatus) (s : State) : State :=
  mkState (summaryData s) (dailyMetrics s) (loading s) (selectedPeriod s) v
    (connectionInfo s).

Definition setConnectionInfo (v : Api.DatabaseReport) (s : State) : State :=
  mkState (summaryData s) (dailyMetrics s) (loading s) (selectedPeriod s)
    (dbStatus s) (Some v).

(** [switch (status)] of [getStatusColor]; a [case] matches by [===]. *)
Definition getStatusColor (status : JsVal) : string :=
  match status with
  | JStr s =>
      if String.eqb s "ACTIVE" then "bg-green-500"
      else if String.eqb s "PAUSED" then "bg-yellow-500"
      else if String.eqb s "ENDED" then "bg-gray-500"
      else "bg-blue-500"
  | _ => "bg-blue-500"
  end.

Definition getStatusBadge (status : JsVal) : string :=
  match status with
  | JStr s =>
      if String.eqb s "ACTIVE" then "bg-green-100 text-green-800 border-green-200"
      else if String.eqb s "PAUSED" then "bg-yellow-100 text-yellow-800 border-yellow-200"
      else if String.eqb s "ENDED" then "bg-gray-100 text-gray-800 border-gray-200"
      else "bg-blue-100 text-blue-800 border-blue-200"
  | _ => "bg-blue-100 text-blue-800 border-blue-200"
  end.

Section AdSurveillance.
Context {Store : Type} {gw : Gateway Store} {host : Host}.

(** [Promise.all] of the two reads: both are started in this order and
    neither changes the store, so they are run one after the other.  The
    argument the component passes to [fetchSummaryMetrics] is dropped by the
    callee, which declares no parameter.  [finally] sets [loading] back on
    both paths. *)
Definition loadData (s : State) : Async Store State :=
  let s := setLoading true s in
  try_catch
    (summary <- Api.fetchSummaryMetrics ;;
     daily <- Api.fetchDailyMetrics None ;;
     ret (setLoading false (setDailyMetrics daily (setSummaryData summary s))))
    (fun _ => ret (setLoading false s)).

(** The probe is awaited outside any [try]: when it rejects, so does the
    handler, after the status [checking] set on entry. *)
Definition checkDatabaseStatus (s : State) : Async Store State :=
  let s := setDbStatus checking s in
  report <- Api.testDatabaseConnection ;;
  ret (setConnectionInfo report
         (setDbStatus (if Api.connected report then connected else disconnected)
            s)).

(** The effect run on mount and whenever the period changes. *)
Definition initialize (s : State) : Async Store State :=
  s <- checkDatabaseStatus s ;;
  loadData s.

End AdSurveillance.
End AdSurveillance.

(* ===================================================================== *)
(** ** [src/components/TargetingIntel.tsx]: loading *)
(* ===================================================================== *)

Module TargetingIntelPage.

Record State : Type := mkState {
  data : JsVal;
  loading : bool;
  error : option string
}.

Definition initial : State :=
  {| data := JNull; loading := true; error := None |}.

(** [isPeak] of [biddingHourlyChartData]: both comparisons are between
    strings, so they go by character codes. *)
Definition isPeak (time : string) : bool :=
  String.leb "6pm" time && String.leb time "9pm".

Section TargetingIntelPage.
Context {Store : Type} {gw : Gateway Store} {host : Host}.

Definition loadData (s : State) : Async Store State :=
  try_catch
    (let s := mkState (data s) true (error s) in
     latestData <- TargetingIntel.fetchLatestTargetingIntel ;;
     ret (mkState latestData false (error s)))
    (fun _ =>
       ret (mkState (data s) false
              (Some "Failed to load targeting intelligence data"))).

End TargetingIntelPage.
End TargetingIntelPage.

(* ===================================================================== *)
(** ** An in-memory store behind the gateway *)
(* ===================================================================== *)

Module MemoryStore.

(** ASCII lower case, the case folding of [ILIKE]. *)
Definition to_lower (c : ascii) : ascii :=
  let n := nat_of_ascii c in
  if ((65 <=? n) && (n <=? 90))%nat then ascii_of_nat (n + 32) else c.

Fixpoint lower (s : string) : string :=
  match s with
  | EmptyString => EmptyString
  | String c rest => String (to_lower c) (lower rest)
  end.

(** Modelled from the spec: the store's pattern match behind
    [name ILIKE %query%], not among the sources.  It is SQL's [LIKE]: [%]
    stands for any run of characters and [_] for any one character; escape
    characters are left out. *)
Fixpoint like (pattern s : string) : bool :=
  match pattern with
  | EmptyString =>
      match s with
      | EmptyString => true
      | String _ _ => false
      end
  | String p rest =>
      if Ascii.eqb p "%" then
        (fix skip (s : string) : bool :=
           like rest s
           || match s with
              | EmptyString => false
              | String _ s' => skip s'
              end) s
      else
        match s with
        | EmptyString => false
        | String c s' =>
            (Ascii.eqb p "_" || Ascii.eqb p c) && like rest s'
        end
  end.

(** [ILIKE]: [like] without regard to ASCII case. *)
Definition ilike (pattern s : string) : bool :=
  like (lower pattern) (lower s).

(** A row passes [.eq(col, v)] when its column holds the text [v], and
    [.ilike(col, p)] when its column holds a text that matches [p]. *)
Definition passes (f : Filter) (row : JsVal) : bool :=
  match f with
  | Eq column value =>
      match get_prop column row with
      | JStr s => String.eqb s value
      | _ => false
      end
  | Ilike column pattern =>
      match get_prop column row with
      | JStr s => ilike pattern s
      | _ => false
      end
  end.

Definition passes_all (fs : list Filter) (row : JsVal) : bool :=
  forallb (fun f => passes f row) fs.

(** Modelled from the spec: the store's order on the values of one column
    behind [order(col, { ascending })], not among the sources.  This is the
    ascending order.  An absent value ([null]) counts as larger than every
    present one, as in the SQL database behind the client, so it comes last
    in ascending and first in descending order. *)
Definition sql_leb (a b : JsVal) : bool :=
  match a, b with
  | _, JNull | _, JUndefined => true
  | JNull, _ | JUndefined, _ => false
  | JNum x, JNum y => Qle_bool x y
  | JStr x, JStr y => String.leb x y
  | JBool x, JBool y => implb x y
  | _, _ => true
  end.

(** [before o a b]: row [a] may stand before row [b] under [o]. *)
Definition before (o : Order) (a b : JsVal) : bool :=
  if ascending o
  then sql_leb (get_prop (order_column o) a) (get_prop (order_column o) b)
  else sql_leb (get_prop (order_column o) b) (get_prop (order_column o) a).

Fixpoint insert_sorted (le : JsVal -> JsVal -> bool) (x : JsVal)
  (rows : list JsVal) : list JsVal :=
  match rows with
  | [] => [x]
  | y :: rest =>
      if le x y then x :: y :: rest else y :: insert_sorted le x rest
  end.

Fixpoint sort_rows (le : JsVal -> JsVal -> bool) (rows : list JsVal)
  : list JsVal :=
  match rows with
  | [] => []
  | x :: rest => insert_sorted le x (sort_rows le rest)
  end.

Definition ordered (o : option Order) (rows : list JsVal) : list JsVal :=
  match o with
  | Some o => sort_rows (before o) rows
  | None => rows
  end.

Definition limited (n : option nat) (rows : list JsVal) : list JsVal :=
  match n with
  | Some n => firstn n rows
  | None => rows
  end.

(** The tables by name, and the counter that names inserted rows. *)
Record Db : Type := mkDb {
  tables : list (string * list JsVal);
  next_id : nat
}.

Fixpoint table_rows (name : string) (ts : list (string * list JsVal))
  : option (list JsVal) :=
  match ts with
  | [] => None
  | (n, rows) :: rest =>
      if String.eqb name n then Some rows else table_rows name rest
  end.

Fixpoint with_row (name : string) (row : JsVal)
  (ts : list (string * list JsVal)) : list (string * list JsVal) :=
  match ts with
  | [] => []
  | (n, rows) :: rest =>
      if String.eqb name n then (n, (rows ++ [row])%list) :: rest
      else (n, rows) :: with_row name row rest
  end.

Definition failure (msg : string) : Response :=
  {| data := JNull; Gateway.error := Some (mkError msg); count := None |}.

Definition success (d : JsVal) (c : option Z) : Response :=
  {| data := d; Gateway.error := None; count := c |}.

(** The rows a query selects: filter, then order, then limit. *)
Definition selected (q : Query) (rows : list JsVal) : list JsVal :=
  limited (limit q) (ordered (order q) (filter (passes_all (filters q)) rows)).

(** The reply to a single-row fetch that does not select exactly one row
    (the client's error [PGRST116]). *)
Definition not_one_row : Response :=
  failure "JSON object requested, multiple (or no) rows returned".

(** Modelled from the spec: the gateway's [query(entity, filter, order,
    limit)], whose implementation (the client of the hosted store) is not
    among the sources.  It answers with rows or with an error.  Rows are
    kept in the shape a query returns them, so the column list is not
    interpreted.  A single-row fetch ([.single()]) must select exactly one
    row: when it selects none, or several, the client replies with an error
    and no data (the reply that [src/context/AuthContext.tsx] avoids with
    [.maybeSingle()]).  A query on a missing table is an error too. *)
Definition query (q : Query) (db : Db) : Outcome Response :=
  match table_rows (from q) (tables db) with
  | None => Returned (failure "relation does not exist")
  | Some rows =>
      let found := selected q rows in
      if head_count q
      then Returned (success JNull
             (Some (Z.of_nat (List.length (filter (passes_all (filters q)) rows)))))
      else if single q then
        match found with
        | [row] => Returned (success row None)
        | _ => Returned not_one_row
        end
      else Returned (success (JArr found) None)
  end.

Definition row_id (n : nat) : string :=
  "row-" ++ pad6 n.

(** Modelled from the spec: the gateway's [insert(entity, row)], absent from
    the sources like [query].  One object is stored under a fresh [id] and
    returned; anything else, or a missing table, is an error that leaves the
    store as it was. *)
Definition insert (table : string) (rows : list JsVal) (db : Db)
  : Outcome Response * Db :=
  match table_rows table (tables db), rows with
  | Some _, [JObj fields] =>
      let row := JObj (assign "id" (JStr (row_id (next_id db))) fields) in
      (Returned (success row None),
       {| tables := with_row table row (tables db);
          next_id := S (next_id db) |})
  | Some _, _ => (Returned (failure "one row expected"), db)
  | None, _ => (Returned (failure "relation does not exist"), db)
  end.

#[export] Instance memory_gateway : Gateway Db := {
  run_query := query;
  run_insert := insert
}.

(** A fixed host: both modules were evaluated at the same two instants. *)
Definition loaded_first : Instant := mkInstant 2024 1 15 9 30 0 120.
Definition loaded_second : Instant := mkInstant 2024 1 15 9 30 0 121.

Definition plain_string (v : JsVal) : string :=
  match v with
  | JStr s => s
  | JNull => "null"
  | _ => "undefined"
  end.

Definition fixed_host : Host := {|
  api_created_at := loaded_first;
  api_updated_at := loaded_second;
  targeting_created_at := loaded_first;
  targeting_updated_at := loaded_second;
  toLocaleDateString := plain_string;
  ToString := plain_string
|}.

(** A world over the in-memory store whose clock stands still at [t]. *)
Definition world_at (ready : bool) (db : Db) (t : Instant) : World Db :=
  mkWorld ready db (fun _ => t) 0 [].

End MemoryStore.

(* ===================================================================== *)
(** ** Worlds used in examples *)
(* ===================================================================== *)

Module Examples.
Import MemoryStore.

Definition nike_running : JsVal :=
  JObj [ ("id", JStr "t-1"); ("competitor_id", JStr "c-1");
         ("competitor_name", JStr "Nike Running");
         ("created_at", JStr "2024-01-01T08:00:00.000Z") ].

Definition adidas : JsVal :=
  JObj [ ("id", JStr "t-2"); ("competitor_id", JStr "c-2");
         ("competitor_name", JStr "Adidas");
         ("created_at", JStr "2024-02-01T08:00:00.000Z") ].

(** Two daily rows for the same day; the second has no spend recorded and
    no competitor joined. *)
Definition spend_five : JsVal :=
  JObj [ ("id", JStr "d-1"); ("date", JStr "2024-03-01");
         ("daily_spend", num 5); ("daily_impressions", num 900);
         ("daily_ctr", dec 2 100);
         ("competitor", JObj [("id", JStr "c-1"); ("name", JStr "Nike")]) ].

Definition spend_missing : JsVal :=
  JObj [ ("id", JStr "d-2"); ("date", JStr "2024-03-01");
         ("daily_spend", JNull); ("daily_impressions", JNull);
         ("daily_ctr", JNull); ("competitor", JNull) ].

(** A summary row that carries nothing but its identifier. *)
Definition bare_summary : JsVal := JObj [("id", JStr "s-1")].

Definition populated_db : Db :=
  mkDb [ ("summary_metrics", [bare_summary]);
         ("daily_metrics", [spend_five; spend_missing]);
         ("targeting_intel", [adidas; nike_running]) ] 0.

Definition empty_db : Db :=
  mkDb [ ("summary_metrics", []); ("daily_metrics", []);
         ("targeting_intel", []) ] 0.

(** A store in which the table [summary_metrics] does not exist. *)
Definition no_summary_db : Db :=
  mkDb [ ("daily_metrics", [spend_five]); ("targeting_intel", []) ] 0.

Definition evening : Instant := mkInstant 2024 3 1 23 59 59 999.
Definition midnight : Instant := mkInstant 2024 3 2 0 0 0 0.

(** A world whose first clock reading is the evening of 1 March and whose
    later readings fall on 2 March. *)
Definition over_midnight (db : Db) : World Db :=
  mkWorld true db
    (fun n => match n with O => evening | S _ => midnight end) 0 [].

(** A gateway that answers count queries with three rows and refuses every
    other request with an error reply. *)
Definition counts_only : Gateway unit := {|
  run_query := fun q _ =>
    if head_count q then Returned (success JNull (Some 3%Z))
    else Returned (failure "permission denied");
  run_insert := fun _ _ st => (Returned (failure "permission denied"), st)
|}.

Definition counts_only_world : World unit :=
  mkWorld true tt (fun _ => evening) 0 [].

(** A gateway behind a dead network: every request throws. *)
Definition unreachable : Gateway unit := {|
  run_query := fun _ _ => Threw (js_error "Failed to fetch");
  run_insert := fun _ _ st => (Threw (js_error "Failed to fetch"), st)
|}.

(** A gateway whose requests reject with no value at all. *)
Definition rejects_with_nothing : Gateway unit := {|
  run_query := fun _ _ => Threw JUndefined;
  run_insert := fun _ _ st => (Threw JUndefined, st)
|}.

(** A day with twelve rows, not stored in order of spend, and one row of
    another day that records no spend. *)
Definition day_row (n : Z) (spend : Z) : JsVal :=
  JObj [ ("id", num n); ("date", JStr "2024-03-01");
         ("daily_spend", num spend); ("competitor", JNull) ].

Definition other_day : JsVal :=
  JObj [ ("id", num 99); ("date", JStr "2024-02-29");
         ("daily_spend", JNull); ("competitor", JNull) ].

Definition busy_day_db : Db :=
  mkDb [ ("daily_metrics",
           [ day_row 1 40; day_row 2 700; other_day; day_row 3 15;
             day_row 4 320; day_row 5 5; day_row 6 90; day_row 7 1200;
             day_row 8 60; day_row 9 250; day_row 10 30; day_row 11 800;
             day_row 12 10 ]) ] 0.

End Examples.

(* ===================================================================== *)
(** ** What the operations settle on *)
(* ===================================================================== *)

(** The outcome of each operation written as a function of the gateway's
    replies, and the vocabulary of the statements below. *)

Section Outcomes.
Context {Store : Type} {gw : Gateway Store} {host : Host}.

(** A run falls back to [v] without touching the gateway. *)
Definition falls_back {A} (m : Async Store A) (v : A) (w : World Store) : Prop :=
  result (m w) = Returned v /\ calls (after (m w)) = calls w.

(** The value [single_record] settles on, by cases on the reply. *)
Definition single_value (r : Response) : JsVal :=
  if is_error r then TargetingIntel.mockTargetingIntelData
  else if truthy (data r) then data r
  else JNull.

(** The world once query [q] has been awaited. *)
Definition logged (q : Query) (w : World Store) : World Store :=
  mkWorld (client_ready w) (store w) (clock w) (ticks w)
    (calls w ++ [CallQuery q]).

(** What a read that ends in [single_record] resolves to when the gateway is
    available: the fallback if the query throws, else [single_value]. *)
Definition single_read (q : Query) (w : World Store) : JsVal :=
  match run_query q (store w) with
  | Returned r => single_value r
  | Threw _ => TargetingIntel.mockTargetingIntelData
  end.

(** The entity [to_ad_card] builds from a row that is an object. *)
Definition card_of (row : JsVal) : Api.AdCardData :=
  {| Api.id := get_prop "id" row;
     Api.date := get_prop "date" row;
     Api.competitor_name :=
       nullish_or (opt_prop "name" (get_prop "competitor" row)) (JStr "Unknown");
     Api.platform := JStr "Mixed";
     Api.status := JStr "ACTIVE";
     Api.daily_spend := nullish_or (get_prop "daily_spend" row) (num 0);
     Api.daily_impressions := nullish_or (get_prop "daily_impressions" row) (num 0);
     Api.daily_ctr := nullish_or (get_prop "daily_ctr" row) (num 0) |}.

(** The list [fetchDailyMetrics] settles on for a given outcome of its
    query: the mapped rows, or the (empty) fallback list. *)
Definition daily_value (reply : Outcome Response) : list Api.AdCardData :=
  match reply with
  | Threw _ => Api.mockDailyMetrics
  | Returned r =>
      if is_error r || negb (truthy (data r)) then Api.mockDailyMetrics
      else
        match data r with
        | JArr rows =>
            if existsb nullish rows then Api.mockDailyMetrics
            else map card_of rows
        | _ => Api.mockDailyMetrics
        end
  end.

(** The date [fetchDailyMetrics] asks for: the argument, or the calendar day
    of the next clock reading when the argument is absent or empty. *)
Definition asked_date (date : option string) (w : World Store) : string :=
  match date with
  | Some d =>
      if String.eqb d ""
      then split_head "T" (toISOString (clock w (ticks w)))
      else d
  | None => split_head "T" (toISOString (clock w (ticks w)))
  end.

(** The world once the clock has been read. *)
Definition ticked (w : World Store) : World Store :=
  mkWorld (client_ready w) (store w) (clock w) (S (ticks w)) (calls w).

Definition dated (date : option string) (w : World Store) : World Store :=
  match date with
  | Some d => if String.eqb d "" then ticked w else w
  | None => ticked w
  end.

Definition summary_value (reply : Outcome Response) : JsVal :=
  match reply with
  | Threw _ => Api.mockSummaryMetrics
  | Returned r =>
      if is_error r || negb (truthy (data r)) || is_zero (js_length (data r))
      then Api.mockSummaryMetrics
      else first_item (data r)
  end.

Definition all_value (reply : Outcome Response) : JsVal :=
  match reply with
  | Threw _ => JArr [TargetingIntel.mockTargetingIntelData]
  | Returned r =>
      if is_error r then JArr [TargetingIntel.mockTargetingIntelData]
      else if negb (truthy (data r)) || is_zero (js_length (data r))
      then JArr [TargetingIntel.mockTargetingIntelData]
      else data r
  end.

(** The row [createTargetingIntel] sends: the input stamped with the next
    two clock readings. *)
Definition sent_row (input : list (string * JsVal)) (w : World Store) : JsVal :=
  TargetingIntel.stamped input (clock w (ticks w)) (clock w (S (ticks w))).

(** The value it settles on for a given outcome of the insert. *)
Definition created_value (reply : Outcome Response) : JsVal :=
  match reply with
  | Threw _ => JNull
  | Returned r =>
      match Gateway.error r with
      | Some _ => JNull
      | None => if nullish (data r) then JNull else data r
      end
  end.

(** What the [catch] block of a probe does with the value [err] that was
    thrown: reading [err.message] throws in turn when [err] is [null] or
    [undefined], and then the probe itself rejects; otherwise the report
    carries [err.message], whatever it is. *)
Definition probe_caught {R} (disconnected : JsVal -> R) (err : JsVal)
  : Outcome R :=
  if nullish err
  then Threw (js_error "Cannot read properties of null or undefined")
  else Returned (disconnected (get_prop "message" err)).

(** What [testDatabaseConnection] settles on with the gateway available. *)
Definition database_outcome (w : World Store) : Outcome Api.DatabaseReport :=
  match run_query (count_query "summary_metrics") (store w) with
  | Threw err => probe_caught (Api.mkDatabaseReport false 0 0) err
  | Returned summary =>
      match run_query (count_query "daily_metrics") (store w) with
      | Threw err => probe_caught (Api.mkDatabaseReport false 0 0) err
      | Returned daily =>
          Returned
            (Api.mkDatabaseReport true (count_or_zero (count summary))
               (count_or_zero (count daily)) JUndefined)
      end
  end.

(** What [testTargetingIntelConnection] settles on with the gateway
    available. *)
Definition targeting_outcome (w : World Store)
  : Outcome TargetingIntel.TargetingReport :=
  match run_query (count_query "targeting_intel") (store w) with
  | Threw err => probe_caught (TargetingIntel.mkTargetingReport false 0 None) err
  | Returned counted =>
      match Gateway.error counted with
      | Some countError =>
          Returned
            (TargetingIntel.mkTargetingReport false 0 None
               (JStr (message countError)))
      | None =>
          match run_query TargetingIntel.latest_label_query (store w) with
          | Threw err =>
              probe_caught (TargetingIntel.mkTargetingReport false 0 None) err
          | Returned latest =>
              Returned
                (TargetingIntel.mkTargetingReport true
                   (count_or_zero (count counted))
                   (TargetingIntel.latest_label (data latest)) JUndefined)
          end
      end
  end.

(** The count query of the targeting probe failed: it threw, or its reply
    carries an error. *)
Definition count_failed (w : World Store) : Prop :=
  match run_query (count_query "targeting_intel") (store w) with
  | Threw _ => True
  | Returned counted => Gateway.error counted <> None
  end.

(** The contract of a single-row fetch: a reply to [q] that carries no
    error carries a record. *)
Definition single_contract (q : Query) (w : World Store) : Prop :=
  forall r,
    run_query q (store w) = Returned r ->
    Gateway.error r = None ->
    truthy (data r) = true.

(** A query rejected with [null] or [undefined]. *)
Definition threw_nothing (reply : Outcome Response) : Prop :=
  match reply with
  | Threw err => nullish err = true
  | Returned _ => False
  end.

(** The latest-record query of the targeting probe throws. *)
Definition latest_threw (w : World Store) : Prop :=
  match run_query TargetingIntel.latest_label_query (store w) with
  | Threw _ => True
  | Returned _ => False
  end.

End Outcomes.

Import MemoryStore.

(** Rows in the order [le], each next to its successor. *)
Fixpoint sorted_by (le : JsVal -> JsVal -> bool) (rows : list JsVal) : bool :=
  match rows with
  | [] => true
  | x :: rest =>
      match rest with
      | [] => true
      | y :: _ => le x y && sorted_by le rest
      end
  end.

(** [a] stands before [b] in descending order of [daily_spend]. *)
Definition spend_geb (a b : Api.AdCardData) : bool :=
  match Api.daily_spend a, Api.daily_spend b with
  | JNum x, JNum y => Qle_bool y x
  | _, _ => false
  end.

(** The list is in descending order of [daily_spend]. *)
Fixpoint spend_sorted (cards : list Api.AdCardData) : bool :=
  match cards with
  | [] => true
  | a :: rest =>
      match rest with
      | [] => true
      | b :: _ => spend_geb a b && spend_sorted rest
      end
  end.

(** The row records a spend: its [daily_spend] is a number. *)
Definition has_spend (row : JsVal) : Prop :=
  exists x, get_prop "daily_spend" row = JNum x.

(** [name] holds [query] as a substring, ASCII case aside. *)
Definition contains_ci (query name : string) : Prop :=
  exists pre mid post, name = pre ++ mid ++ post /\ lower mid = lower query.

(** A query is plain when it holds neither wildcard. *)
Fixpoint plain (s : string) : bool :=
  match s with
  | EmptyString => true
  | String c rest => negb (Ascii.eqb c "%") && negb (Ascii.eqb c "_") && plain rest
  end.

(** The filter [fetchTargetingIntelByCompetitorName] sends. *)
Definition name_filter (competitorName : string) : Filter :=
  Ilike "competitor_name" ("%" ++ competitorName ++ "%").

(** A query failed: it threw, or its reply carries an error. *)
Definition failed (reply : Outcome Response) : Prop :=
  match reply with
  | Threw _ => True
  | Returned r => Gateway.error r <> None
  end.

(* ===================================================================== *)
(** * Properties *)
(* ===================================================================== *)

Section Properties.
Context {Store : Type} {gw : Gateway Store} {host : Host}.

(** ** The call log and the store under the primitive steps *)

Lemma isSupabaseConnected_run (w : World Store) :
  isSupabaseConnected w = (Returned (client_ready w), w).
Proof. reflexivity. Qed.

Lemma api_logConnectionStatus_run (w : World Store) :
  Api.logConnectionStatus w = (Returned (client_ready w), w).
Proof. reflexivity. Qed.

Lemma targeting_logConnectionStatus_run (w : World Store) :
  TargetingIntel.logConnectionStatus w = (Returned (client_ready w), w).
Proof. reflexivity. Qed.

(** C1. When the gateway is unavailable, each of the six read operations
    returns its fallback constant (the summary constant, the empty list, the
    one-element list holding the targeting constant, the targeting constant)
    and the log of gateway calls is left as it was: no query is issued. *)
Theorem reads_fall_back_when_unavailable (w : World Store) :
  client_ready w = false ->
  falls_back Api.fetchSummaryMetrics Api.mockSummaryMetrics w
  /\ (forall date, falls_back (Api.fetchDailyMetrics date) Api.mockDailyMetrics w)
  /\ falls_back TargetingIntel.fetchAllTargetingIntel
       (JArr [TargetingIntel.mockTargetingIntelData]) w
  /\ (forall competitorId,
        falls_back (TargetingIntel.fetchTargetingIntelByCompetitorId competitorId)
          TargetingIntel.mockTargetingIntelData w)
  /\ (forall competitorName,
        falls_back (TargetingIntel.fetchTargetingIntelByCompetitorName competitorName)
          TargetingIntel.mockTargetingIntelData w)
  /\ falls_back TargetingIntel.fetchLatestTargetingIntel
       TargetingIntel.mockTargetingIntelData w.
Proof.
  intros Hdown.
  unfold falls_back, Api.fetchSummaryMetrics, Api.fetchDailyMetrics,
    TargetingIntel.fetchAllTargetingIntel,
    TargetingIntel.fetchTargetingIntelByCompetitorId,
    TargetingIntel.fetchTargetingIntelByCompetitorName,
    TargetingIntel.fetchLatestTargetingIntel, bind.
  rewrite api_logConnectionStatus_run, targeting_logConnectionStatus_run.
  rewrite Hdown. cbn.
  repeat split.
Qed.

(** ** The three single-record reads *)

Lemma truthy_not_nullish (v : JsVal) : truthy v = true -> nullish v = false.
Proof. destruct v; simpl; congruence. Qed.

Lemma single_record_run (r : Response) (w : World Store) :
  TargetingIntel.single_record r w = (Returned (single_value r), w).
Proof.
  unfold TargetingIntel.single_record, single_value.
  destruct (is_error r); [reflexivity|].
  destruct (truthy (data r)) eqn:Ht; [|reflexivity].
  unfold bind, member. rewrite (truthy_not_nullish _ Ht). reflexivity.
Qed.

Lemma single_read_run (q : Query) (w : World Store) :
  try_catch (r <- await_query q ;; TargetingIntel.single_record r)
    (fun _ => ret TargetingIntel.mockTargetingIntelData) w
  = (Returned (single_read q w), logged q w).
Proof.
  unfold try_catch, bind, await_query, single_read.
  destruct (run_query q (store w)) as [r|msg]; [|reflexivity].
  rewrite single_record_run. reflexivity.
Qed.

Lemma by_id_run (competitorId : string) (w : World Store) :
  client_ready w = true ->
  TargetingIntel.fetchTargetingIntelByCompetitorId competitorId w
  = (Returned (single_read (TargetingIntel.by_id_query competitorId) w),
     logged (TargetingIntel.by_id_query competitorId) w).
Proof.
  intros Hup. unfold TargetingIntel.fetchTargetingIntelByCompetitorId.
  unfold bind at 1. rewrite targeting_logConnectionStatus_run, Hup. cbn [negb].
  apply single_read_run.
Qed.

Lemma by_name_run (competitorName : string) (w : World Store) :
  client_ready w = true ->
  TargetingIntel.fetchTargetingIntelByCompetitorName competitorName w
  = (Returned (single_read (TargetingIntel.by_name_query competitorName) w),
     logged (TargetingIntel.by_name_query competitorName) w).
Proof.
  intros Hup. unfold TargetingIntel.fetchTargetingIntelByCompetitorName.
  unfold bind at 1. rewrite targeting_logConnectionStatus_run, Hup. cbn [negb].
  apply single_read_run.
Qed.

Lemma latest_run (w : World Store) :
  client_ready w = true ->
  TargetingIntel.fetchLatestTargetingIntel w
  = (Returned (single_read TargetingIntel.latest_query w),
     logged TargetingIntel.latest_query w).
Proof.
  intros Hup. unfold TargetingIntel.fetchLatestTargetingIntel.
  unfold bind at 1. rewrite targeting_logConnectionStatus_run, Hup. cbn [negb].
  apply single_read_run.
Qed.

(** What [fetchTargetingIntelByCompetitorId] makes of each reply of the
    gateway: the fallback constant when the gateway is unavailable, when the
    query throws and when the reply carries an error; the record of the
    reply otherwise, and [null] for a reply with neither error nor data. *)
Lemma by_id_outcomes (competitorId : string) (w : World Store) :
  (client_ready w = false ->
     result (TargetingIntel.fetchTargetingIntelByCompetitorId competitorId w)
     = Returned TargetingIntel.mockTargetingIntelData)
  /\ (client_ready w = true ->
      match run_query (TargetingIntel.by_id_query competitorId) (store w) with
      | Threw _ =>
          result (TargetingIntel.fetchTargetingIntelByCompetitorId competitorId w)
          = Returned TargetingIntel.mockTargetingIntelData
      | Returned r =>
          match Gateway.error r with
          | Some _ =>
              result (TargetingIntel.fetchTargetingIntelByCompetitorId competitorId w)
              = Returned TargetingIntel.mockTargetingIntelData
          | None =>
              if truthy (data r)
              then result (TargetingIntel.fetchTargetingIntelByCompetitorId competitorId w)
                   = Returned (data r)
              else result (TargetingIntel.fetchTargetingIntelByCompetitorId competitorId w)
                   = Returned JNull
          end
      end).
Proof.
  split; intros Hready.
  - unfold TargetingIntel.fetchTargetingIntelByCompetitorId, bind.
    rewrite targeting_logConnectionStatus_run, Hready. reflexivity.
  - rewrite (by_id_run _ _ Hready). unfold result, single_read. cbn [fst].
    destruct (run_query _ (store w)) as [r|msg]; [|reflexivity].
    unfold single_value, is_error.
    destruct (Gateway.error r); [reflexivity|].
    destruct (truthy (data r)); reflexivity.
Qed.

(** ** Daily metrics: the row mapping *)

Lemma to_ad_card_run (row : JsVal) (w : World Store) :
  Api.to_ad_card row w
  = if nullish row
    then (Threw (js_error "Cannot read properties of null or undefined"), w)
    else (Returned (card_of row), w).
Proof.
  unfold Api.to_ad_card, bind, member.
  destruct (nullish row); reflexivity.
Qed.

Lemma map_to_ad_card_run (rows : list JsVal) (w : World Store) :
  map_async Api.to_ad_card rows w
  = if existsb nullish rows
    then (Threw (js_error "Cannot read properties of null or undefined"), w)
    else (Returned (map card_of rows), w).
Proof.
  induction rows as [|row rows IH]; [reflexivity|].
  cbn [map_async existsb map]. unfold bind at 1.
  rewrite to_ad_card_run.
  destruct (nullish row); [reflexivity|].
  cbn [orb]. unfold bind at 1. rewrite IH.
  destruct (existsb nullish rows); reflexivity.
Qed.

Lemma daily_try_run (targetDate : string) (w : World Store) :
  try_catch
    (r <- await_query (Api.daily_query targetDate) ;;
     if is_error r || negb (truthy (data r))
     then ret Api.mockDailyMetrics
     else js_map Api.to_ad_card (data r))
    (fun _ => ret Api.mockDailyMetrics) w
  = (Returned (daily_value (run_query (Api.daily_query targetDate) (store w))),
     logged (Api.daily_query targetDate) w).
Proof.
  unfold try_catch, bind, await_query, daily_value.
  destruct (run_query _ (store w)) as [r|msg]; [|reflexivity].
  destruct (is_error r || negb (truthy (data r))); [reflexivity|].
  unfold js_map.
  destruct (data r) as [ | |b|q|s0|rows|fs]; try reflexivity.
  rewrite map_to_ad_card_run.
  destruct (existsb nullish rows); reflexivity.
Qed.

Lemma target_date_run (date : option string) (w : World Store) :
  Api.target_date date w = (Returned (asked_date date w), dated date w).
Proof.
  unfold Api.target_date, asked_date, dated.
  destruct date as [d|]; [destruct (String.eqb d "")|]; reflexivity.
Qed.

Lemma dated_store (date : option string) (w : World Store) :
  store (dated date w) = store w.
Proof.
  unfold dated. destruct date as [d|]; [destruct (String.eqb d "")|]; reflexivity.
Qed.

Lemma dated_calls (date : option string) (w : World Store) :
  calls (dated date w) = calls w.
Proof.
  unfold dated. destruct date as [d|]; [destruct (String.eqb d "")|]; reflexivity.
Qed.

Lemma daily_run (date : option string) (w : World Store) :
  client_ready w = true ->
  Api.fetchDailyMetrics date w
  = (Returned (daily_value
                 (run_query (Api.daily_query (asked_date date w)) (store w))),
     logged (Api.daily_query (asked_date date w)) (dated date w)).
Proof.
  intros Hup. unfold Api.fetchDailyMetrics.
  unfold bind at 1. rewrite api_logConnectionStatus_run, Hup. cbn [negb].
  unfold bind at 1. rewrite target_date_run.
  rewrite daily_try_run, dated_store. reflexivity.
Qed.

Lemma daily_value_cards (reply : Outcome Response) (card : Api.AdCardData) :
  In card (daily_value reply) ->
  exists r rows row,
    reply = Returned r /\ data r = JArr rows /\ In row rows
    /\ card = card_of row.
Proof.
  unfold daily_value. destruct reply as [r|msg]; [|intros []].
  destruct (is_error r || negb (truthy (data r))); [intros []|].
  destruct (data r) as [ | |b|q|s0|rows|fs] eqn:Hdata; try (intros []).
  destruct (existsb nullish rows); [intros []|].
  intros Hin. apply in_map_iff in Hin. destruct Hin as (row & <- & Hrow).
  exists r, rows, row. repeat split; assumption.
Qed.

Lemma daily_unavailable (date : option string) (w : World Store) :
  client_ready w = false ->
  Api.fetchDailyMetrics date w = (Returned Api.mockDailyMetrics, w).
Proof.
  intros Hdown. unfold Api.fetchDailyMetrics, bind.
  rewrite api_logConnectionStatus_run, Hdown. reflexivity.
Qed.

(** Whatever the world, [fetchDailyMetrics] returns a list, and each of its
    elements is [card_of] some row of the reply to its query. *)
Lemma daily_returns_cards (date : option string) (w : World Store) :
  exists cards,
    result (Api.fetchDailyMetrics date w) = Returned cards
    /\ forall card, In card cards ->
         exists r rows row,
           run_query (Api.daily_query (asked_date date w)) (store w) = Returned r
           /\ data r = JArr rows /\ In row rows /\ card = card_of row.
Proof.
  destruct (client_ready w) eqn:Hready.
  - rewrite (daily_run date w Hready). eexists. split; [reflexivity|].
    intros card Hin. now apply daily_value_cards in Hin.
  - rewrite (daily_unavailable date w Hready). exists Api.mockDailyMetrics.
    split; [reflexivity|]. intros card [].
Qed.

(** C9. Every element of the list [fetchDailyMetrics] returns carries the
    platform ["Mixed"] and the status ["ACTIVE"], whatever the row it was
    built from holds (the fallback list has no element). *)
Theorem daily_cards_platform_and_status (date : option string) (w : World Store) :
  exists cards,
    result (Api.fetchDailyMetrics date w) = Returned cards
    /\ forall card, In card cards ->
         Api.platform card = JStr "Mixed" /\ Api.status card = JStr "ACTIVE".
Proof.
  destruct (daily_returns_cards date w) as (cards & Hres & Hcards).
  exists cards. split; [exact Hres|].
  intros card Hin. destruct (Hcards card Hin) as (r & rows & row & _ & _ & _ & ->).
  split; reflexivity.
Qed.

(** ** Summary metrics and the full targeting list *)

Lemma summary_run (w : World Store) :
  client_ready w = true ->
  Api.fetchSummaryMetrics w
  = (Returned (summary_value (run_query Api.summary_query (store w))),
     logged Api.summary_query w).
Proof.
  intros Hup. unfold Api.fetchSummaryMetrics.
  unfold bind at 1. rewrite api_logConnectionStatus_run, Hup. cbn [negb].
  unfold try_catch, bind, await_query, summary_value.
  destruct (run_query _ (store w)) as [r|msg]; [|reflexivity].
  destruct (is_error r || negb (truthy (data r)) || is_zero (js_length (data r)));
    reflexivity.
Qed.

Lemma all_run (w : World Store) :
  client_ready w = true ->
  TargetingIntel.fetchAllTargetingIntel w
  = (Returned (all_value (run_query TargetingIntel.all_query (store w))),
     logged TargetingIntel.all_query w).
Proof.
  intros Hup. unfold TargetingIntel.fetchAllTargetingIntel.
  unfold bind at 1. rewrite targeting_logConnectionStatus_run, Hup. cbn [negb].
  unfold try_catch, bind, await_query, all_value.
  destruct (run_query _ (store w)) as [r|msg]; [|reflexivity].
  destruct (is_error r); [reflexivity|].
  destruct (negb (truthy (data r)) || is_zero (js_length (data r)));
    reflexivity.
Qed.

Lemma nonempty_not_zero (row : JsVal) (rest : list JsVal) :
  is_zero (js_length (JArr (row :: rest))) = false.
Proof.
  unfold js_length, is_zero. cbn [List.length].
  rewrite Nat2Z.inj_succ. unfold Qeq_bool, inject_Z. cbn [Qnum Qden].
  apply Z.eqb_neq. lia.
Qed.

(** C5, as amended.  Only [fetchDailyMetrics] maps the rows of the store:
    each element of its result is built from a row of the reply to its
    query; it copies [id] and [date] from that row as they are, takes the name of the joined competitor or ["Unknown"] when the
    join or the name is absent, and takes the three daily figures or [0]
    when absent, so these four fields are never [null] or [undefined].
    [fetchSummaryMetrics] returns the first row of a successful reply, and
    [fetchAllTargetingIntel] the rows of a successful reply, as the store
    sent them. *)
Theorem rows_mapped_only_for_daily_metrics (w : World Store) :
  (forall date, exists cards,
     result (Api.fetchDailyMetrics date w) = Returned cards
     /\ forall card, In card cards -> exists r rows row,
          run_query (Api.daily_query (asked_date date w)) (store w) = Returned r
          /\ data r = JArr rows /\ In row rows
          /\ Api.id card = get_prop "id" row
          /\ Api.date card = get_prop "date" row
          /\ Api.competitor_name card
             = nullish_or (opt_prop "name" (get_prop "competitor" row))
                 (JStr "Unknown")
          /\ Api.daily_spend card
             = nullish_or (get_prop "daily_spend" row) (num 0)
          /\ Api.daily_impressions card
             = nullish_or (get_prop "daily_impressions" row) (num 0)
          /\ Api.daily_ctr card
             = nullish_or (get_prop "daily_ctr" row) (num 0)
          /\ nullish (Api.competitor_name card) = false
          /\ nullish (Api.daily_spend card) = false
          /\ nullish (Api.daily_impressions card) = false
          /\ nullish (Api.daily_ctr card) = false)
  /\ (client_ready w = true ->
      forall r row rest,
        run_query Api.summary_query (store w) = Returned r ->
        Gateway.error r = None ->
        data r = JArr (row :: rest) ->
        result (Api.fetchSummaryMetrics w) = Returned row)
  /\ (client_ready w = true ->
      forall r row rest,
        run_query TargetingIntel.all_query (store w) = Returned r ->
        Gateway.error r = None ->
        data r = JArr (row :: rest) ->
        result (TargetingIntel.fetchAllTargetingIntel w)
        = Returned (JArr (row :: rest))).
Proof.
  split; [|split].
  - intros date.
    destruct (daily_returns_cards date w) as (cards & Hres & Hcards).
    exists cards. split; [exact Hres|].
    intros card Hin.
    destruct (Hcards card Hin) as (r & rows & row & Hrun & Hdata & Hrow & ->).
    exists r, rows, row. cbn [card_of Api.id Api.date Api.competitor_name
      Api.daily_spend Api.daily_impressions Api.daily_ctr].
    split; [exact Hrun|]. split; [exact Hdata|]. split; [exact Hrow|].
    repeat split; unfold nullish_or;
      match goal with
      | |- context [if nullish ?v then _ else _] =>
          destruct (nullish v) eqn:E; [reflexivity | exact E]
      end.
  - intros Hup r row rest Hrun Herr Hdata.
    rewrite (summary_run w Hup), Hrun. unfold result, summary_value, is_error.
    cbn [fst]. rewrite Herr, Hdata, nonempty_not_zero. reflexivity.
  - intros Hup r row rest Hrun Herr Hdata.
    rewrite (all_run w Hup), Hrun. unfold result, all_value, is_error.
    cbn [fst]. rewrite Herr, Hdata, nonempty_not_zero. reflexivity.
Qed.

(** ** Repeated reads *)

Lemma unavailable_reads (w : World Store) :
  client_ready w = false ->
  Api.fetchSummaryMetrics w = (Returned Api.mockSummaryMetrics, w)
  /\ TargetingIntel.fetchAllTargetingIntel w
     = (Returned (JArr [TargetingIntel.mockTargetingIntelData]), w)
  /\ (forall competitorId,
        TargetingIntel.fetchTargetingIntelByCompetitorId competitorId w
        = (Returned TargetingIntel.mockTargetingIntelData, w))
  /\ (forall competitorName,
        TargetingIntel.fetchTargetingIntelByCompetitorName competitorName w
        = (Returned TargetingIntel.mockTargetingIntelData, w))
  /\ TargetingIntel.fetchLatestTargetingIntel w
     = (Returned TargetingIntel.mockTargetingIntelData, w).
Proof.
  intros Hdown.
  unfold Api.fetchSummaryMetrics, TargetingIntel.fetchAllTargetingIntel,
    TargetingIntel.fetchTargetingIntelByCompetitorId,
    TargetingIntel.fetchTargetingIntelByCompetitorName,
    TargetingIntel.fetchLatestTargetingIntel, bind.
  rewrite api_logConnectionStatus_run, targeting_logConnectionStatus_run, Hdown.
  repeat split.
Qed.

(** C8, as amended.  In two worlds with the same store and the same
    availability, whatever their clocks and call logs, each read operation
    returns the same value for the same arguments; for [fetchDailyMetrics]
    this needs the same date asked for in both, which is the argument when
    it is a non-empty string and the day read off the clock otherwise. *)
Theorem reads_repeatable (w w' : World Store) :
  client_ready w = client_ready w' ->
  store w = store w' ->
  result (Api.fetchSummaryMetrics w) = result (Api.fetchSummaryMetrics w')
  /\ (forall date,
        asked_date date w = asked_date date w' ->
        result (Api.fetchDailyMetrics date w)
        = result (Api.fetchDailyMetrics date w'))
  /\ result (TargetingIntel.fetchAllTargetingIntel w)
     = result (TargetingIntel.fetchAllTargetingIntel w')
  /\ (forall competitorId,
        result (TargetingIntel.fetchTargetingIntelByCompetitorId competitorId w)
        = result (TargetingIntel.fetchTargetingIntelByCompetitorId competitorId w'))
  /\ (forall competitorName,
        result (TargetingIntel.fetchTargetingIntelByCompetitorName competitorName w)
        = result (TargetingIntel.fetchTargetingIntelByCompetitorName competitorName w'))
  /\ result (TargetingIntel.fetchLatestTargetingIntel w)
     = result (TargetingIntel.fetchLatestTargetingIntel w').
Proof.
  intros Hready Hstore.
  destruct (client_ready w) eqn:Hw; symmetry in Hready.
  - rewrite (summary_run w Hw), (summary_run w' Hready).
    rewrite (all_run w Hw), (all_run w' Hready).
    rewrite (latest_run w Hw), (latest_run w' Hready).
    unfold result, single_read. cbn [fst]. rewrite Hstore.
    repeat split.
    + intros date Hdate.
      rewrite (daily_run date w Hw), (daily_run date w' Hready).
      cbn [fst]. rewrite Hdate, Hstore. reflexivity.
    + intros competitorId.
      rewrite (by_id_run _ w Hw), (by_id_run _ w' Hready).
      unfold single_read. cbn [fst]. rewrite Hstore. reflexivity.
    + intros competitorName.
      rewrite (by_name_run _ w Hw), (by_name_run _ w' Hready).
      unfold single_read. cbn [fst]. rewrite Hstore. reflexivity.
  - destruct (unavailable_reads w Hw) as (-> & -> & Hid & Hname & ->).
    destruct (unavailable_reads w' Hready) as (-> & -> & Hid' & Hname' & ->).
    repeat split.
    + intros date _.
      rewrite (daily_unavailable date w Hw), (daily_unavailable date w' Hready).
      reflexivity.
    + intros competitorId. rewrite Hid, Hid'. reflexivity.
    + intros competitorName. rewrite Hname, Hname'. reflexivity.
Qed.

(** A read leaves the store and the availability as they were. *)
Lemma reads_keep_store (w : World Store) :
  store (after (Api.fetchSummaryMetrics w)) = store w
  /\ (forall date, store (after (Api.fetchDailyMetrics date w)) = store w)
  /\ store (after (TargetingIntel.fetchAllTargetingIntel w)) = store w
  /\ (forall competitorId,
        store (after (TargetingIntel.fetchTargetingIntelByCompetitorId competitorId w))
        = store w)
  /\ (forall competitorName,
        store (after (TargetingIntel.fetchTargetingIntelByCompetitorName competitorName w))
        = store w)
  /\ store (after (TargetingIntel.fetchLatestTargetingIntel w)) = store w.
Proof.
  destruct (client_ready w) eqn:Hw.
  - rewrite (summary_run w Hw), (all_run w Hw), (latest_run w Hw).
    repeat split.
    + intros date. rewrite (daily_run date w Hw). cbn. apply dated_store.
    + intros competitorId. rewrite (by_id_run _ w Hw). reflexivity.
    + intros competitorName. rewrite (by_name_run _ w Hw). reflexivity.
  - destruct (unavailable_reads w Hw) as (-> & -> & Hid & Hname & ->).
    repeat split.
    + intros date. rewrite (daily_unavailable date w Hw). reflexivity.
    + intros competitorId. rewrite Hid. reflexivity.
    + intros competitorName. rewrite Hname. reflexivity.
Qed.

(** ** Timestamps *)

Lemma digit_is_digit (n : nat) : is_digit (digit n) = true.
Proof.
  unfold is_digit, digit.
  assert (Hlt : n mod 10 < 10) by (apply Nat.mod_upper_bound; lia).
  rewrite nat_ascii_embedding by lia.
  apply andb_true_iff. split; apply Nat.leb_le; lia.
Qed.

Lemma pad2_digits (n : nat) : all_digits (pad2 n) = true.
Proof. unfold pad2. cbn [all_digits]. now rewrite !digit_is_digit. Qed.

Lemma pad3_digits (n : nat) : all_digits (pad3 n) = true.
Proof. unfold pad3. cbn [all_digits]. now rewrite digit_is_digit, pad2_digits. Qed.

Lemma pad4_digits (n : nat) : all_digits (pad4 n) = true.
Proof. unfold pad4. cbn [all_digits]. now rewrite digit_is_digit, pad3_digits. Qed.

(** [toISOString] yields the 24-character UTC form for a four-digit year. *)
Lemma toISOString_shape (t : Instant) :
  year t < 10000 -> is_iso8601 (toISOString t) = true.
Proof.
  intros Hyear.
  unfold toISOString, iso_date, iso_time, iso_year.
  apply Nat.ltb_lt in Hyear. rewrite Hyear.
  unfold is_iso8601, pad4, pad3, pad2.
  cbn [append String.length substring Nat.eqb all_digits String.eqb Ascii.eqb
       Bool.eqb andb].
  rewrite !digit_is_digit. reflexivity.
Qed.

Lemma digit_not_T (n : nat) : Ascii.eqb (digit n) "T" = false.
Proof.
  apply Ascii.eqb_neq. intros Heq.
  pose proof (digit_is_digit n) as Hd. rewrite Heq in Hd. discriminate Hd.
Qed.

(** The day [fetchDailyMetrics] asks for by default is the date part of
    the clock reading. *)
Lemma today_of_clock (t : Instant) :
  year t < 10000 -> split_head "T" (toISOString t) = iso_date t.
Proof.
  intros Hyear.
  unfold toISOString, iso_date, iso_year.
  apply Nat.ltb_lt in Hyear. rewrite Hyear.
  unfold pad4, pad3, pad2.
  cbn [append split_head].
  rewrite !digit_not_T. reflexivity.
Qed.

(** ** Object fields *)

Lemma lookup_assign_same (k : string) (v : JsVal) (fs : list (string * JsVal)) :
  lookup k (assign k v fs) = v.
Proof.
  induction fs as [|[k' v'] fs IH]; cbn.
  - now rewrite String.eqb_refl.
  - destruct (String.eqb k k') eqn:E; cbn.
    + now rewrite String.eqb_refl.
    + now rewrite E.
Qed.

Lemma lookup_assign_other (k k' : string) (v : JsVal)
  (fs : list (string * JsVal)) :
  k <> k' -> lookup k (assign k' v fs) = lookup k fs.
Proof.
  intros Hneq. apply String.eqb_neq in Hneq.
  induction fs as [|[k0 v0] fs IH]; cbn.
  - now rewrite Hneq.
  - destruct (String.eqb k' k0) eqn:E; cbn.
    + apply String.eqb_eq in E. subst k0. now rewrite Hneq.
    + now rewrite IH.
Qed.

Lemma stamped_timestamps (input : list (string * JsVal))
  (created updated : Instant) :
  get_prop "created_at" (TargetingIntel.stamped input created updated)
  = JStr (toISOString created)
  /\ get_prop "updated_at" (TargetingIntel.stamped input created updated)
     = JStr (toISOString updated).
Proof.
  unfold TargetingIntel.stamped, get_prop. split.
  - rewrite lookup_assign_other by discriminate. apply lookup_assign_same.
  - apply lookup_assign_same.
Qed.

(** The fields of the input other than the two timestamps are sent as they
    were given. *)
Lemma stamped_keeps_input (input : list (string * JsVal))
  (created updated : Instant) (k : string) :
  k <> "created_at" -> k <> "updated_at" ->
  get_prop k (TargetingIntel.stamped input created updated) = lookup k input.
Proof.
  intros Hc Hu. unfold TargetingIntel.stamped, get_prop.
  now rewrite !lookup_assign_other.
Qed.

(** ** The write operation *)

Lemma create_run (input : list (string * JsVal)) (w : World Store) :
  client_ready w = true ->
  TargetingIntel.createTargetingIntel input w
  = (Returned
       (created_value
          (fst (run_insert "targeting_intel" [sent_row input w] (store w)))),
     mkWorld (client_ready w)
       (snd (run_insert "targeting_intel" [sent_row input w] (store w)))
       (clock w) (S (S (ticks w)))
       (calls w ++ [CallInsert "targeting_intel" [sent_row input w]])).
Proof.
  intros Hup. unfold TargetingIntel.createTargetingIntel.
  unfold bind at 1. rewrite isSupabaseConnected_run, Hup. cbn [negb].
  unfold try_catch, bind, new_Date, await_insert, sent_row, created_value.
  cbn [client_ready store clock ticks calls].
  destruct (run_insert _ _ (store w)) as [[r|msg] st]; cbn [fst snd];
    [|now rewrite ?Hup].
  unfold is_error. destruct (Gateway.error r); [now rewrite ?Hup|].
  unfold member. destruct (nullish (data r)); now rewrite ?Hup.
Qed.

(** C6. [createTargetingIntel] returns [null] without any gateway call
    when the gateway is unavailable.  When it is available it issues exactly
    one insert, of the input stamped with [created_at] and [updated_at] read
    from the client's clock in ISO-8601 form, and does nothing else to the
    store; it returns [null] if that insert throws or reports an error, and
    otherwise the entity the insert returned. *)
Theorem create_targeting_intel_contract (input : list (string * JsVal))
  (w : World Store) :
  (client_ready w = false ->
     result (TargetingIntel.createTargetingIntel input w) = Returned JNull
     /\ calls (after (TargetingIntel.createTargetingIntel input w)) = calls w
     /\ store (after (TargetingIntel.createTargetingIntel input w)) = store w)
  /\ (client_ready w = true ->
      let created := clock w (ticks w) in
      let updated := clock w (S (ticks w)) in
      let sent := TargetingIntel.stamped input created updated in
      let reply := run_insert "targeting_intel" [sent] (store w) in
      get_prop "created_at" sent = JStr (toISOString created)
      /\ get_prop "updated_at" sent = JStr (toISOString updated)
      /\ (year created < 10000 -> is_iso8601 (toISOString created) = true)
      /\ (year updated < 10000 -> is_iso8601 (toISOString updated) = true)
      /\ calls (after (TargetingIntel.createTargetingIntel input w))
         = (calls w ++ [CallInsert "targeting_intel" [sent]])%list
      /\ store (after (TargetingIntel.createTargetingIntel input w)) = snd reply
      /\ match fst reply with
         | Threw _ =>
             result (TargetingIntel.createTargetingIntel input w)
             = Returned JNull
         | Returned r =>
             match Gateway.error r with
             | Some _ =>
                 result (TargetingIntel.createTargetingIntel input w)
                 = Returned JNull
             | None =>
                 if nullish (data r)
                 then result (TargetingIntel.createTargetingIntel input w)
                      = Returned JNull
                 else result (TargetingIntel.createTargetingIntel input w)
                      = Returned (data r)
             end
         end).
Proof.
  split.
  - intros Hdown. unfold TargetingIntel.createTargetingIntel, bind.
    rewrite isSupabaseConnected_run, Hdown. repeat split.
  - intros Hup created updated sent reply.
    destruct (stamped_timestamps input created updated) as [Hc Hu].
    split; [exact Hc|]. split; [exact Hu|].
    split; [apply toISOString_shape|]. split; [apply toISOString_shape|].
    rewrite (create_run input w Hup). fold created updated.
    unfold sent_row. fold created updated sent reply.
    unfold result, after. cbn [fst snd calls store].
    split; [reflexivity|]. split; [reflexivity|].
    unfold created_value.
    destruct (fst reply) as [r|msg]; [|reflexivity].
    destruct (Gateway.error r); [reflexivity|].
    destruct (nullish (data r)); reflexivity.
Qed.

(** ** The health probes *)

Lemma probe_caught_run {R} (disconnected : JsVal -> R) (err : JsVal)
  (w : World Store) :
  (err_message <- member "message" err ;; ret (disconnected err_message)) w
  = (probe_caught disconnected err, w).
Proof.
  unfold bind, member, probe_caught. destruct (nullish err); reflexivity.
Qed.

(** [testDatabaseConnection] reads only [count] off its two replies: a
    reply that carries an error still counts as a connection. *)
Lemma database_probe_run (w : World Store) :
  client_ready w = true ->
  result (Api.testDatabaseConnection w) = database_outcome w.
Proof.
  intros Hup. unfold Api.testDatabaseConnection.
  unfold bind at 1. rewrite isSupabaseConnected_run, Hup. cbn [negb].
  unfold try_catch, database_outcome, result.
  unfold bind at 1. unfold await_query at 1. cbn [store].
  destruct (run_query (count_query "summary_metrics") (store w)) as [a|err].
  - unfold bind at 1. unfold await_query at 1. cbn [store].
    destruct (run_query (count_query "daily_metrics") (store w)) as [b|err].
    + reflexivity.
    + rewrite (probe_caught_run (Api.mkDatabaseReport false 0 0)). reflexivity.
  - rewrite (probe_caught_run (Api.mkDatabaseReport false 0 0)). reflexivity.
Qed.

Lemma targeting_probe_run (w : World Store) :
  client_ready w = true ->
  result (TargetingIntel.testTargetingIntelConnection w) = targeting_outcome w.
Proof.
  intros Hup. unfold TargetingIntel.testTargetingIntelConnection.
  unfold bind at 1. rewrite isSupabaseConnected_run, Hup. cbn [negb].
  unfold try_catch, targeting_outcome, result.
  unfold bind at 1. unfold await_query at 1. cbn [store].
  destruct (run_query (count_query "targeting_intel") (store w)) as [c|err].
  - destruct (Gateway.error c); [reflexivity|].
    unfold bind at 1. unfold await_query at 1. cbn [store].
    destruct (run_query TargetingIntel.latest_label_query (store w)) as [l|err].
    + reflexivity.
    + rewrite (probe_caught_run (TargetingIntel.mkTargetingReport false 0 None)).
      reflexivity.
  - rewrite (probe_caught_run (TargetingIntel.mkTargetingReport false 0 None)).
    reflexivity.
Qed.

(** C10. In [testTargetingIntelConnection] with the gateway available, a
    latest-record query that fails with an error reply (no data) after a
    successful count leaves the report connected, with the count and no
    latest record; a report is disconnected exactly when the count query
    failed or a query threw.  (The probe itself rejects only after a query
    threw: with [null] or [undefined], whose [message] cannot be read.) *)
Theorem targeting_probe_tolerates_latest_failure (w : World Store) :
  client_ready w = true ->
  (forall counted latest failure,
     run_query (count_query "targeting_intel") (store w) = Returned counted ->
     Gateway.error counted = None ->
     run_query TargetingIntel.latest_label_query (store w) = Returned latest ->
     Gateway.error latest = Some failure ->
     truthy (data latest) = false ->
     result (TargetingIntel.testTargetingIntelConnection w)
     = Returned {| TargetingIntel.connected := true;
                   TargetingIntel.recordCount := count_or_zero (count counted);
                   TargetingIntel.latestRecord := None;
                   TargetingIntel.error := JUndefined |})
  /\ match result (TargetingIntel.testTargetingIntelConnection w) with
     | Returned report =>
         TargetingIntel.connected report = false
         <-> count_failed w \/ latest_threw w
     | Threw _ => count_failed w \/ latest_threw w
     end.
Proof.
  intros Hup. rewrite (targeting_probe_run w Hup). split.
  - intros counted latest failure Hcount Hok Hlatest _ Hdata.
    unfold targeting_outcome. rewrite Hcount, Hok, Hlatest.
    unfold TargetingIntel.latest_label. rewrite Hdata. reflexivity.
  - unfold targeting_outcome, count_failed, latest_threw, probe_caught.
    destruct (run_query (count_query "targeting_intel") (store w)) as [c|err].
    + destruct (Gateway.error c) as [e|]; cbn.
      * split; [intros _; left; discriminate | reflexivity].
      * destruct (run_query TargetingIntel.latest_label_query (store w))
          as [l|err]; cbn.
        -- split; [discriminate | intros [Hc|[]]; now contradiction Hc].
        -- destruct (nullish err); cbn; [now right|].
           split; [intros _; right; exact I | reflexivity].
    + destruct (nullish err); cbn; [now left|].
      split; [intros _; left; exact I | reflexivity].
Qed.

End Properties.

(* ===================================================================== *)
(** * Properties over the in-memory store *)
(* ===================================================================== *)

(** ** Ordering of rows *)

Section Sorting.
Variable le : JsVal -> JsVal -> bool.
Hypothesis le_total : forall a b, le a b = false -> le b a = true.

Lemma insert_sorted_In (x y : JsVal) (rows : list JsVal) :
  In y (insert_sorted le x rows) <-> y = x \/ In y rows.
Proof.
  induction rows as [|z rows IH]; cbn.
  - intuition congruence.
  - destruct (le x z); cbn; [intuition congruence|].
    rewrite IH. intuition congruence.
Qed.

Lemma sort_rows_In (y : JsVal) (rows : list JsVal) :
  In y (sort_rows le rows) <-> In y rows.
Proof.
  induction rows as [|x rows IH]; cbn; [tauto|].
  rewrite insert_sorted_In, IH. intuition congruence.
Qed.

Lemma insert_sorted_sorted (x : JsVal) (rows : list JsVal) :
  sorted_by le rows = true -> sorted_by le (insert_sorted le x rows) = true.
Proof.
  induction rows as [|y rows IH]; intros Hs; [reflexivity|].
  cbn [insert_sorted]. destruct (le x y) eqn:Hxy.
  - cbn [sorted_by] in *. now rewrite Hxy.
  - specialize (le_total _ _ Hxy) as Hyx.
    destruct rows as [|z rows].
    + cbn. now rewrite Hyx.
    + cbn [sorted_by] in Hs. apply andb_true_iff in Hs. destruct Hs as [Hyz Hrest].
      specialize (IH Hrest). cbn [insert_sorted] in *.
      destruct (le x z); cbn [sorted_by] in *.
      * now rewrite Hyx, IH.
      * now rewrite Hyz, IH.
Qed.

Lemma sort_rows_sorted (rows : list JsVal) :
  sorted_by le (sort_rows le rows) = true.
Proof.
  induction rows as [|x rows IH]; [reflexivity|].
  cbn [sort_rows]. now apply insert_sorted_sorted.
Qed.

Lemma sorted_by_tail (x : JsVal) (rows : list JsVal) :
  sorted_by le (x :: rows) = true -> sorted_by le rows = true.
Proof.
  destruct rows as [|y rows]; [reflexivity|].
  cbn [sorted_by]. intros Hs. apply andb_true_iff in Hs. tauto.
Qed.

Lemma firstn_sorted (n : nat) (rows : list JsVal) :
  sorted_by le rows = true -> sorted_by le (firstn n rows) = true.
Proof.
  revert rows. induction n as [|n IH]; intros rows Hs; [reflexivity|].
  destruct rows as [|x rows]; [reflexivity|].
  cbn [firstn]. specialize (IH rows (sorted_by_tail _ _ Hs)).
  destruct rows as [|y rows]; [destruct n; reflexivity|].
  destruct n as [|n]; [reflexivity|].
  cbn [firstn sorted_by] in *.
  apply andb_true_iff in Hs. destruct Hs as [Hxy _].
  now rewrite Hxy, IH.
Qed.

End Sorting.

Lemma string_leb_total (a b : string) :
  String.leb a b = false -> String.leb b a = true.
Proof.
  destruct (String.leb_total a b) as [Hab|Hba]; congruence.
Qed.

Lemma Qle_bool_total (x y : Q) : Qle_bool x y = false -> Qle_bool y x = true.
Proof.
  intros Hxy. apply Qle_bool_iff. apply Qlt_le_weak. apply Qnot_le_lt.
  intros Hle. apply Qle_bool_iff in Hle. congruence.
Qed.

Lemma sql_leb_total (a b : JsVal) :
  sql_leb a b = false -> sql_leb b a = true.
Proof.
  destruct a, b; cbn; try congruence.
  - destruct b, b0; cbn; congruence.
  - apply Qle_bool_total.
  - apply string_leb_total.
Qed.

Lemma before_total (o : Order) (a b : JsVal) :
  before o a b = false -> before o b a = true.
Proof.
  unfold before. destruct (ascending o); apply sql_leb_total.
Qed.

Lemma selected_sorted (q : Query) (o : Order) (rows : list JsVal) :
  order q = Some o -> sorted_by (before o) (selected q rows) = true.
Proof.
  intros Ho. unfold selected, ordered, limited. rewrite Ho.
  destruct (limit q) as [n|].
  - apply firstn_sorted. apply sort_rows_sorted. apply before_total.
  - apply sort_rows_sorted. apply before_total.
Qed.

Lemma selected_In (q : Query) (rows : list JsVal) (row : JsVal) :
  In row (selected q rows) ->
  In row rows /\ passes_all (filters q) row = true.
Proof.
  unfold selected, limited, ordered. intros Hin.
  assert (Hsorted : In row (match order q with
                            | Some o => sort_rows (before o)
                                          (filter (passes_all (filters q)) rows)
                            | None => filter (passes_all (filters q)) rows
                            end)).
  { destruct (limit q) as [n|]; [|exact Hin].
    rewrite <- (firstn_skipn n). apply in_or_app. now left. }
  assert (Hfilter : In row (filter (passes_all (filters q)) rows)).
  { destruct (order q) as [o|]; [|exact Hsorted].
    now apply sort_rows_In in Hsorted. }
  now apply filter_In in Hfilter.
Qed.

Lemma filter_none {A} (f : A -> bool) (l : list A) :
  (forall x, In x l -> f x = false) -> filter f l = [].
Proof.
  induction l as [|x l IH]; intros Hall; [reflexivity|].
  cbn [filter]. rewrite (Hall x) by now left.
  apply IH. intros y Hy. apply Hall. now right.
Qed.

Lemma passes_all_one (f : Filter) (row : JsVal) :
  passes_all [f] row = passes f row.
Proof. unfold passes_all. cbn. apply andb_true_r. Qed.

(** ** Daily metrics over the store *)

Lemma has_spend_object (row : JsVal) : has_spend row -> nullish row = false.
Proof. intros [x Hx]. destruct row; cbn in *; congruence. Qed.

Lemma has_spend_no_nullish (rows : list JsVal) :
  (forall row, In row rows -> has_spend row) -> existsb nullish rows = false.
Proof.
  induction rows as [|row rows IH]; intros Hall; [reflexivity|].
  cbn [existsb]. rewrite (has_spend_object row) by (apply Hall; now left).
  apply IH. intros r Hr. apply Hall. now right.
Qed.

Lemma cards_sorted_of_rows (rows : list JsVal) :
  (forall row, In row rows -> has_spend row) ->
  sorted_by (before (mkOrder "daily_spend" false)) rows = true ->
  spend_sorted (map card_of rows) = true.
Proof.
  induction rows as [|a rows IH]; intros Hall Hs; [reflexivity|].
  destruct rows as [|b rows]; [reflexivity|].
  cbn [sorted_by] in Hs. apply andb_true_iff in Hs. destruct Hs as [Hab Hrest].
  cbn [map spend_sorted]. apply andb_true_iff. split.
  - destruct (Hall a (or_introl eq_refl)) as [x Hx].
    destruct (Hall b (or_intror (or_introl eq_refl))) as [y Hy].
    unfold before in Hab. cbn [ascending order_column] in Hab.
    rewrite Hx, Hy in Hab. unfold spend_geb. cbn [card_of Api.daily_spend].
    rewrite Hx, Hy. exact Hab.
  - apply IH; [|exact Hrest]. intros r Hr. apply Hall. now right.
Qed.

(** X22. Over the in-memory store, for every date and every state of the
    store, [fetchDailyMetrics] returns at most 10 elements, and they are in
    descending order of [daily_spend] whenever every row of the date asked
    for records a spend; rows of other dates do not matter. *)
Theorem daily_metrics_sorted_when_spend_recorded (date : option string)
  (w : World Db) :
  exists cards,
    result (Api.fetchDailyMetrics date w) = Returned cards
    /\ List.length cards <= 10
    /\ ((forall rows row,
           table_rows "daily_metrics" (tables (store w)) = Some rows ->
           In row rows ->
           passes (Eq "date" (asked_date date w)) row = true ->
           has_spend row) ->
        spend_sorted cards = true).
Proof.
  destruct (client_ready w) eqn:Hready.
  2:{ rewrite (daily_unavailable date w Hready). exists Api.mockDailyMetrics.
      repeat split. cbn. lia. }
  rewrite (daily_run date w Hready). eexists. split; [reflexivity|].
  change (run_query (Api.daily_query (asked_date date w)) (store w))
    with (query (Api.daily_query (asked_date date w)) (store w)).
  unfold query. cbn [from Api.daily_query head_count single].
  destruct (table_rows "daily_metrics" (tables (store w))) as [rows|] eqn:Htable.
  2:{ cbn. split; [lia|reflexivity]. }
  fold (Api.daily_query (asked_date date w)).
  set (found := selected _ rows).
  assert (Hlen : List.length found <= 10).
  { subst found. unfold selected, limited. cbn [limit Api.daily_query].
    apply firstn_le_length. }
  assert (Hsorted : sorted_by (before (mkOrder "daily_spend" false)) found = true).
  { subst found. now apply selected_sorted. }
  assert (Hsub : forall row, In row found ->
            In row rows /\ passes (Eq "date" (asked_date date w)) row = true).
  { subst found. intros row Hin. apply selected_In in Hin.
    destruct Hin as [Hrow Hpass]. split; [exact Hrow|].
    cbn [filters Api.daily_query] in Hpass.
    now rewrite passes_all_one in Hpass. }
  clearbody found. cbn [daily_value success data Gateway.error is_error truthy
    negb orb].
  destruct (existsb nullish found) eqn:Hnull.
  - cbn. split; [lia|reflexivity].
  - split; [now rewrite length_map|].
    intros Hall. apply cards_sorted_of_rows; [|exact Hsorted].
    intros row Hin. destruct (Hsub row Hin) as [Hrow Hpass].
    now apply (Hall rows row eq_refl).
Qed.

(** ** Pattern matching *)

Lemma like_percent (rest s : string) :
  like (String "%" rest) s
  = like rest s
    || match s with
       | EmptyString => false
       | String _ s' => like (String "%" rest) s'
       end.
Proof. destruct s; reflexivity. Qed.

Lemma like_any (s : string) : like "%" s = true.
Proof.
  induction s as [|c s IH]; [reflexivity|].
  rewrite like_percent. cbn [like]. exact IH.
Qed.

(** A pattern matches its own text, wildcards included, followed by
    whatever the rest of the pattern matches. *)
Lemma like_self (x rest s : string) :
  like rest s = true -> like (x ++ rest) (x ++ s) = true.
Proof.
  intros Hrest. induction x as [|c x IH]; [exact Hrest|].
  cbn [append]. destruct (Ascii.eqb c "%") eqn:Hc.
  - apply Ascii.eqb_eq in Hc. subst c.
    rewrite like_percent, like_percent, IH. cbn. apply orb_true_r.
  - cbn [like]. rewrite Hc, Ascii.eqb_refl, orb_true_r. exact IH.
Qed.

Lemma like_skip (pre rest s : string) :
  like rest s = true -> like (String "%" rest) (pre ++ s) = true.
Proof.
  intros Hrest. induction pre as [|c pre IH]; rewrite like_percent.
  - cbn [append]. now rewrite Hrest.
  - cbn [append]. rewrite IH. apply orb_true_r.
Qed.

Lemma lower_app (a b : string) : lower (a ++ b) = lower a ++ lower b.
Proof. induction a as [|c a IH]; cbn; [reflexivity | now rewrite IH]. Qed.

(** The pattern [%query%] matches every text that contains the query. *)
Lemma ilike_contains (query name : string) :
  contains_ci query name -> ilike ("%" ++ query ++ "%") name = true.
Proof.
  intros (pre & mid & post & -> & Hmid).
  unfold ilike. rewrite !lower_app, Hmid.
  change (lower "%") with "%". cbn [append].
  apply like_skip. apply like_self. apply like_any.
Qed.

Lemma to_lower_keeps_wildcards (c : ascii) (wild : ascii) :
  wild = "%"%char \/ wild = "_"%char ->
  Ascii.eqb (to_lower c) wild = Ascii.eqb c wild.
Proof.
  intros Hwild. unfold to_lower.
  destruct ((65 <=? nat_of_ascii c) && (nat_of_ascii c <=? 90))%nat eqn:Hup;
    [|reflexivity].
  apply andb_true_iff in Hup. destruct Hup as [Hlo Hhi].
  apply Nat.leb_le in Hlo, Hhi.
  transitivity false; [|symmetry]; apply Ascii.eqb_neq; intros Heq.
  - apply (f_equal nat_of_ascii) in Heq.
    rewrite nat_ascii_embedding in Heq by lia.
    destruct Hwild as [-> | ->]; cbn in Heq; lia.
  - subst c. destruct Hwild as [-> | ->]; cbn in Hhi, Hlo; lia.
Qed.

Lemma plain_lower (s : string) : plain (lower s) = plain s.
Proof.
  induction s as [|c s IH]; [reflexivity|].
  cbn [lower plain]. rewrite IH.
  rewrite !to_lower_keeps_wildcards by auto. reflexivity.
Qed.

(** A plain pattern matches only a text that starts with it. *)
Lemma like_plain_prefix (x rest s : string) :
  plain x = true -> like (x ++ rest) s = true ->
  exists s', s = x ++ s' /\ like rest s' = true.
Proof.
  revert s. induction x as [|c x IH]; intros s Hplain Hlike.
  - exists s. split; [reflexivity | exact Hlike].
  - cbn [plain] in Hplain. apply andb_true_iff in Hplain.
    destruct Hplain as [Hc Hx]. apply andb_true_iff in Hc.
    destruct Hc as [Hpct Hund]. apply negb_true_iff in Hpct, Hund.
    cbn [append like] in Hlike. rewrite Hpct in Hlike.
    destruct s as [|d s]; [discriminate|].
    rewrite Hund in Hlike. cbn [orb] in Hlike.
    apply andb_true_iff in Hlike. destruct Hlike as [Hcd Hlike].
    apply Ascii.eqb_eq in Hcd. subst d.
    destruct (IH s Hx Hlike) as (s' & -> & Hs').
    exists s'. split; [reflexivity | exact Hs'].
Qed.

Lemma like_percent_split (rest s : string) :
  like (String "%" rest) s = true ->
  exists pre s', s = pre ++ s' /\ like rest s' = true.
Proof.
  induction s as [|c s IH]; rewrite like_percent; intros Hlike.
  - rewrite orb_false_r in Hlike. exists "", "". now split.
  - apply orb_true_iff in Hlike. destruct Hlike as [Hhere|Hlater].
    + exists "", (String c s). now split.
    + destruct (IH Hlater) as (pre & s' & -> & Hs').
      exists (String c pre), s'. now split.
Qed.

Lemma lower_app_inv (s a b : string) :
  lower s = a ++ b ->
  exists s1 s2, s = s1 ++ s2 /\ lower s1 = a /\ lower s2 = b.
Proof.
  revert s. induction a as [|c a IH]; intros s Hs.
  - exists "", s. now repeat split.
  - destruct s as [|d s]; [discriminate|].
    cbn [lower append] in Hs. injection Hs as Hd Hs.
    destruct (IH s Hs) as (s1 & s2 & -> & H1 & H2).
    exists (String d s1), s2. cbn [lower append]. rewrite Hd, H1.
    now repeat split.
Qed.

(** For a plain query, [%query%] matches exactly the texts that contain
    the query, case aside. *)
Lemma ilike_plain_iff (query name : string) :
  plain query = true ->
  ilike ("%" ++ query ++ "%") name = true <-> contains_ci query name.
Proof.
  intros Hplain. split; [|apply ilike_contains].
  unfold ilike. rewrite !lower_app. change (lower "%") with "%".
  cbn [append]. intros Hlike.
  apply like_percent_split in Hlike. destruct Hlike as (pre & s' & Hname & Hlike).
  apply like_plain_prefix in Hlike; [|now rewrite plain_lower].
  destruct Hlike as (post & -> & _).
  apply lower_app_inv in Hname. destruct Hname as (n1 & n2 & -> & _ & Hn2).
  apply lower_app_inv in Hn2. destruct Hn2 as (mid & n3 & -> & Hmid & _).
  exists n1, mid, n3. split; [reflexivity | exact Hmid].
Qed.

(** ** Lookup by competitor name over the store *)

Lemma passes_name_object (competitorName : string) (row : JsVal) :
  passes (name_filter competitorName) row = true -> truthy row = true.
Proof. destruct row; cbn; congruence. Qed.

Section NameLookup.
Context {host : Host}.

(** What the store answers to the by-name query, from the rows of its
    table: the first selected row, or the error of a single-row fetch that
    selects nothing. *)
Lemma by_name_reply (competitorName : string) (db : Db) (rows : list JsVal) :
  table_rows "targeting_intel" (tables db) = Some rows ->
  query (TargetingIntel.by_name_query competitorName) db
  = Returned
      match selected (TargetingIntel.by_name_query competitorName) rows with
      | [] => not_one_row
      | row :: _ => success row None
      end.
Proof.
  intros Htable. unfold query.
  cbn [from TargetingIntel.by_name_query head_count single]. rewrite Htable.
  fold (TargetingIntel.by_name_query competitorName).
  unfold selected, limited. cbn [limit TargetingIntel.by_name_query].
  destruct (ordered _ _) as [|row [|row' rest]]; reflexivity.
Qed.

Lemma by_name_selected_nil (competitorName : string) (rows : list JsVal) :
  selected (TargetingIntel.by_name_query competitorName) rows = [] ->
  forall row, In row rows -> passes (name_filter competitorName) row = false.
Proof.
  unfold selected, limited, ordered.
  cbn [limit order filters TargetingIntel.by_name_query].
  fold (name_filter competitorName).
  destruct (sort_rows _ _) as [|x xs] eqn:Hsort; [|discriminate].
  intros _ row Hin.
  destruct (passes (name_filter competitorName) row) eqn:Hpass; [|reflexivity].
  assert (Hs : In row (sort_rows (before (mkOrder "created_at" false))
                         (filter (passes_all [name_filter competitorName]) rows))).
  { apply sort_rows_In. apply filter_In. split; [exact Hin|].
    now rewrite passes_all_one. }
  rewrite Hsort in Hs. destruct Hs.
Qed.

(** X21. Over the in-memory store with the gateway available:
    if some row of [targeting_intel] has a name that contains the query,
    case aside, [fetchTargetingIntelByCompetitorName] returns a row of the
    table that matches the query, and that very row when no other row
    matches; if no row matches, the single-row fetch is answered with an
    error and the operation returns the fallback constant, not [null]. *)
Theorem by_name_match_or_fallback (competitorName : string) (w : World Db)
  (rows : list JsVal) :
  client_ready w = true ->
  table_rows "targeting_intel" (tables (store w)) = Some rows ->
  (forall row name,
     In row rows ->
     get_prop "competitor_name" row = JStr name ->
     contains_ci competitorName name ->
     (exists found,
        result (TargetingIntel.fetchTargetingIntelByCompetitorName competitorName w)
        = Returned found
        /\ In found rows
        /\ passes (name_filter competitorName) found = true)
     /\ ((forall other,
            In other rows -> passes (name_filter competitorName) other = true ->
            other = row) ->
         result (TargetingIntel.fetchTargetingIntelByCompetitorName competitorName w)
         = Returned row))
  /\ ((forall row, In row rows -> passes (name_filter competitorName) row = false) ->
      result (TargetingIntel.fetchTargetingIntelByCompetitorName competitorName w)
      = Returned TargetingIntel.mockTargetingIntelData
      /\ TargetingIntel.mockTargetingIntelData <> JNull).
Proof.
  intros Hready Htable.
  rewrite (by_name_run competitorName w Hready).
  unfold result, single_read. cbn [fst].
  change (run_query (TargetingIntel.by_name_query competitorName) (store w))
    with (query (TargetingIntel.by_name_query competitorName) (store w)).
  rewrite (by_name_reply competitorName (store w) rows Htable).
  split.
  - intros row name Hin Hname Hcontains.
    assert (Hpass : passes (name_filter competitorName) row = true).
    { unfold name_filter, passes. rewrite Hname. now apply ilike_contains. }
    assert (Hfound : exists found,
               In found rows
               /\ passes (name_filter competitorName) found = true
               /\ single_value
                    match selected (TargetingIntel.by_name_query competitorName) rows with
                    | [] => not_one_row
                    | r :: _ => success r None
                    end = found).
    { destruct (selected (TargetingIntel.by_name_query competitorName) rows)
        as [|first rest] eqn:Hsel.
      - rewrite (by_name_selected_nil _ _ Hsel row Hin) in Hpass.
        discriminate Hpass.
      - assert (Hfirst : In first (selected (TargetingIntel.by_name_query competitorName) rows))
          by (rewrite Hsel; now left).
        apply selected_In in Hfirst. destruct Hfirst as [Hrow Hp].
        cbn [filters TargetingIntel.by_name_query] in Hp.
        fold (name_filter competitorName) in Hp. rewrite passes_all_one in Hp.
        exists first. unfold single_value.
        cbn [is_error success Gateway.error data].
        rewrite (passes_name_object _ _ Hp). now repeat split. }
    destruct Hfound as (found & Hfin & Hfpass & Hval).
    rewrite Hval. split.
    + exists found. now repeat split.
    + intros Honly. now rewrite (Honly found Hfin Hfpass).
  - intros Hnone.
    split; [|unfold TargetingIntel.mockTargetingIntelData; discriminate].
    unfold selected, limited, ordered.
    cbn [limit order filters TargetingIntel.by_name_query].
    fold (name_filter competitorName).
    rewrite (filter_none (passes_all [name_filter competitorName]) rows).
    + reflexivity.
    + intros row Hin. rewrite passes_all_one. now apply Hnone.
Qed.

(** C3. Over the in-memory store, for every competitor id and every state
    of the store and of the gateway, [fetchTargetingIntelByCompetitorId]
    returns a value that is never [null]: the fallback constant, or a row of
    [targeting_intel] whose [competitor_id] is the id asked for.  It is the
    fallback when the gateway is unavailable, when the table cannot be
    queried, and when no row, or more than one, has that id. *)
Theorem by_id_record_or_fallback (competitorId : string) (w : World Db) :
  exists v,
    result (TargetingIntel.fetchTargetingIntelByCompetitorId competitorId w)
    = Returned v
    /\ v <> JNull
    /\ (v = TargetingIntel.mockTargetingIntelData
        \/ exists rows,
             table_rows "targeting_intel" (tables (store w)) = Some rows
             /\ In v rows
             /\ get_prop "competitor_id" v = JStr competitorId)
    /\ (client_ready w = false -> v = TargetingIntel.mockTargetingIntelData)
    /\ (table_rows "targeting_intel" (tables (store w)) = None ->
        v = TargetingIntel.mockTargetingIntelData)
    /\ (forall rows,
          table_rows "targeting_intel" (tables (store w)) = Some rows ->
          (forall row, In row rows ->
             passes (Eq "competitor_id" competitorId) row = false) ->
          v = TargetingIntel.mockTargetingIntelData).
Proof.
  assert (Hmock : TargetingIntel.mockTargetingIntelData <> JNull)
    by (unfold TargetingIntel.mockTargetingIntelData; discriminate).
  destruct (client_ready w) eqn:Hready.
  2:{ destruct (unavailable_reads w Hready) as (_ & _ & Hid & _).
      rewrite Hid. eexists. split; [reflexivity|]. split; [exact Hmock|].
      split; [now left|]. repeat split. }
  rewrite (by_id_run competitorId w Hready).
  unfold result, single_read. cbn [fst].
  change (run_query (TargetingIntel.by_id_query competitorId) (store w))
    with (query (TargetingIntel.by_id_query competitorId) (store w)).
  unfold query. cbn [from TargetingIntel.by_id_query head_count single].
  destruct (table_rows "targeting_intel" (tables (store w))) as [rows|] eqn:Htable.
  2:{ eexists. split; [reflexivity|]. split; [exact Hmock|].
      split; [now left|]. repeat split. }
  fold (TargetingIntel.by_id_query competitorId).
  destruct (selected (TargetingIntel.by_id_query competitorId) rows)
    as [|row [|row' rest]] eqn:Hsel.
  - eexists. split; [reflexivity|]. split; [exact Hmock|].
    split; [now left|]. repeat split.
  - assert (Hin : In row (selected (TargetingIntel.by_id_query competitorId) rows))
      by (rewrite Hsel; now left).
    apply selected_In in Hin. destruct Hin as [Hrow Hpass].
    cbn [filters TargetingIntel.by_id_query] in Hpass.
    rewrite passes_all_one in Hpass.
    assert (Hid : get_prop "competitor_id" row = JStr competitorId).
    { unfold passes in Hpass.
      destruct (get_prop "competitor_id" row) as [ | |b|q|s0|l|fs];
        try discriminate Hpass.
      apply String.eqb_eq in Hpass. now subst. }
    assert (Htruthy : truthy row = true).
    { destruct row; cbn in Hid; try discriminate Hid. reflexivity. }
    exists row. unfold single_value.
    cbn [is_error success Gateway.error data]. rewrite Htruthy.
    split; [reflexivity|].
    split; [intros ->; discriminate Htruthy|].
    split; [right; exists rows; now repeat split|].
    split; [discriminate|]. split; [discriminate|].
    intros rows' [= <-] Hnone. rewrite (Hnone row Hrow) in Hpass.
    discriminate Hpass.
  - eexists. split; [reflexivity|]. split; [exact Hmock|].
    split; [now left|]. repeat split.
Qed.

End NameLookup.

(* ===================================================================== *)
(** * Concrete runs *)
(* ===================================================================== *)

Section Runs.
#[local] Existing Instance fixed_host.
Import Examples.

(** C1, at a world whose client was never constructed. *)
Lemma reads_fall_back_when_unavailable_run :
  falls_back Api.fetchSummaryMetrics Api.mockSummaryMetrics
    (world_at false populated_db evening)
  /\ falls_back (Api.fetchDailyMetrics None) []
       (world_at false populated_db evening)
  /\ falls_back (TargetingIntel.fetchTargetingIntelByCompetitorName "Nike")
       TargetingIntel.mockTargetingIntelData
       (world_at false populated_db evening).
Proof.
  destruct (reads_fall_back_when_unavailable
              (world_at false populated_db evening) eq_refl)
    as (Hsummary & Hdaily & _ & _ & Hname & _).
  exact (conj Hsummary (conj (Hdaily None) (Hname "Nike"))).
Defined.

(** C2 fails when no row matches.  On the empty store the single-row fetch
    selects nothing and is answered with an error, so
    [fetchTargetingIntelByCompetitorName] takes the error branch and returns
    the fallback constant; its branch that returns [null] is not reached.
    The same happens on the populated store for a name no row contains. *)
Theorem by_name_miss_returns_fallback :
  run_query (TargetingIntel.by_name_query "Nike") empty_db
  = Returned not_one_row
  /\ result (TargetingIntel.fetchTargetingIntelByCompetitorName "Nike"
               (world_at true empty_db evening))
     = Returned TargetingIntel.mockTargetingIntelData
  /\ filter (passes (name_filter "Puma")) [adidas; nike_running] = []
  /\ result (TargetingIntel.fetchTargetingIntelByCompetitorName "Puma"
               (world_at true populated_db evening))
     = Returned TargetingIntel.mockTargetingIntelData
  /\ TargetingIntel.mockTargetingIntelData <> JNull.
Proof. repeat split. discriminate. Qed.

(** X21, for the query ["Nike"]: the populated store answers with the row
    named ["Nike Running"], the empty store with the fallback constant. *)
Lemma by_name_match_or_fallback_run :
  result (TargetingIntel.fetchTargetingIntelByCompetitorName "Nike"
            (world_at true populated_db evening))
  = Returned nike_running
  /\ result (TargetingIntel.fetchTargetingIntelByCompetitorName "Nike"
               (world_at true empty_db evening))
     = Returned TargetingIntel.mockTargetingIntelData.
Proof.
  split.
  - apply (proj1 (by_name_match_or_fallback "Nike"
                    (world_at true populated_db evening)
                    [adidas; nike_running] eq_refl eq_refl)
             nike_running "Nike Running").
    + right. left. reflexivity.
    + reflexivity.
    + exists "", "Nike", " Running". split; reflexivity.
    + intros other [<-|[<-|[]]] Hpass; [discriminate Hpass | reflexivity].
  - apply (proj2 (by_name_match_or_fallback "Nike"
                    (world_at true empty_db evening) [] eq_refl eq_refl)).
    intros row [].
Defined.

(** C3 on the populated store: the one row of competitor [c-1] is returned;
    for an id no row carries, the fallback constant. *)
Lemma by_id_record_or_fallback_run :
  (exists v,
     result (TargetingIntel.fetchTargetingIntelByCompetitorId "c-1"
               (world_at true populated_db evening))
     = Returned v
     /\ v <> JNull
     /\ v = nike_running)
  /\ (exists v,
      result (TargetingIntel.fetchTargetingIntelByCompetitorId "c-9"
                (world_at true populated_db evening))
      = Returned v
      /\ v <> JNull
      /\ v = TargetingIntel.mockTargetingIntelData).
Proof.
  split.
  - destruct (by_id_record_or_fallback "c-1" (world_at true populated_db evening))
      as (v & Hres & Hrecord & _).
    exists v. split; [exact Hres|]. split; [exact Hrecord|].
    assert (Hrun : result (TargetingIntel.fetchTargetingIntelByCompetitorId "c-1"
                             (world_at true populated_db evening))
                   = Returned nike_running) by reflexivity.
    rewrite Hrun in Hres. now injection Hres.
  - destruct (by_id_record_or_fallback "c-9" (world_at true populated_db evening))
      as (v & Hres & Hrecord & _ & _ & _ & Hmiss).
    exists v. split; [exact Hres|]. split; [exact Hrecord|].
    apply (Hmiss [adidas; nike_running] eq_refl).
    intros row [<-|[<-|[]]]; reflexivity.
Defined.

(** C4 fails when a row of the day records no spend: the store, asked for
    descending order, puts that row first, and [fetchDailyMetrics] shows it
    with spend [0], ahead of the row with spend [5]. *)
Theorem daily_metrics_not_sorted :
  exists cards,
    result (Api.fetchDailyMetrics (Some "2024-03-01")
              (world_at true populated_db evening))
    = Returned cards
    /\ map Api.daily_spend cards = [num 0; num 5]
    /\ spend_sorted cards = false.
Proof. eexists. repeat split. Qed.

(** X22, on a day with twelve rows, all with a spend, and a row of another
    day without one: the ten largest spends of the day, largest first. *)
Lemma daily_metrics_sorted_when_spend_recorded_run :
  exists cards,
    result (Api.fetchDailyMetrics (Some "2024-03-01")
              (world_at true busy_day_db evening))
    = Returned cards
    /\ List.length cards <= 10
    /\ spend_sorted cards = true
    /\ map Api.daily_spend cards
       = map num [1200; 800; 700; 320; 250; 90; 60; 40; 30; 15]%Z.
Proof.
  destruct (daily_metrics_sorted_when_spend_recorded (Some "2024-03-01")
              (world_at true busy_day_db evening))
    as (cards & Hres & Hlen & Hsorted).
  exists cards. split; [exact Hres|]. split; [exact Hlen|]. split.
  - apply Hsorted. intros rows row Htable Hin Hdate.
    injection Htable as <-.
    repeat (destruct Hin as [<-|Hin];
            [first [discriminate Hdate | eexists; reflexivity]|]).
    destruct Hin.
  - assert (Hrun : exists cards',
               result (Api.fetchDailyMetrics (Some "2024-03-01")
                         (world_at true busy_day_db evening))
               = Returned cards'
               /\ map Api.daily_spend cards'
                  = map num [1200; 800; 700; 320; 250; 90; 60; 40; 30; 15]%Z)
      by (eexists; split; reflexivity).
    destruct Hrun as (cards' & Hres' & Hspend).
    rewrite Hres' in Hres. injection Hres as <-. exact Hspend.
Defined.

(** C5 fails for the summary: a row that carries only its [id] is returned
    as it is, so its [total_competitor_spend] reaches the caller undefined. *)
Lemma summary_row_returned_unmapped :
  exists row,
    result (Api.fetchSummaryMetrics (world_at true populated_db evening))
    = Returned row
    /\ get_prop "total_competitor_spend" row = JUndefined
    /\ nullish (get_prop "created_at" row) = true.
Proof. exists bare_summary. repeat split. Qed.

(** C5 as amended, on the populated store: the daily row without spend or
    competitor is shown with the defaults, the summary row as stored. *)
Lemma rows_mapped_only_for_daily_metrics_run :
  (exists cards,
     result (Api.fetchDailyMetrics (Some "2024-03-01")
               (world_at true populated_db evening))
     = Returned cards
     /\ map Api.competitor_name cards = [JStr "Unknown"; JStr "Nike"])
  /\ result (Api.fetchSummaryMetrics (world_at true populated_db evening))
     = Returned bare_summary.
Proof.
  pose proof (rows_mapped_only_for_daily_metrics
                (world_at true populated_db evening)) as (Hdaily & Hsummary & _).
  split.
  - destruct (Hdaily (Some "2024-03-01")) as (cards & Hres & _).
    exists cards. split; [exact Hres|].
    cbv in Hres. injection Hres as <-. reflexivity.
  - apply (Hsummary eq_refl (success (JArr [bare_summary]) None) bare_summary []);
      reflexivity.
Defined.

(** C6, on the populated store: the row comes back under a fresh [id] with
    both timestamps read from the client's clock, and the store holds it; on
    a store without the table the insert is refused and nothing changes. *)
Lemma create_targeting_intel_contract_run :
  (exists row,
     result (TargetingIntel.createTargetingIntel
               [("competitor_name", JStr "Puma")]
               (world_at true populated_db evening))
     = Returned row
     /\ get_prop "competitor_name" row = JStr "Puma"
     /\ get_prop "created_at" row = JStr "2024-03-01T23:59:59.999Z"
     /\ get_prop "updated_at" row = JStr "2024-03-01T23:59:59.999Z"
     /\ table_rows "targeting_intel"
          (tables (store (after (TargetingIntel.createTargetingIntel
                                   [("competitor_name", JStr "Puma")]
                                   (world_at true populated_db evening)))))
        = Some [adidas; nike_running; row])
  /\ result (TargetingIntel.createTargetingIntel
               [("competitor_name", JStr "Puma")]
               (world_at true (mkDb [] 0) evening))
     = Returned JNull
  /\ result (TargetingIntel.createTargetingIntel
               [("competitor_name", JStr "Puma")]
               (world_at false populated_db evening))
     = Returned JNull.
Proof.
  split; [|split].
  - pose proof (proj2 (create_targeting_intel_contract
                         [("competitor_name", JStr "Puma")]
                         (world_at true populated_db evening)) eq_refl)
      as (_ & _ & _ & _ & _ & _ & Hres).
    eexists. split; [exact Hres|]. repeat split.
  - pose proof (proj2 (create_targeting_intel_contract
                         [("competitor_name", JStr "Puma")]
                         (world_at true (mkDb [] 0) evening)) eq_refl)
      as (_ & _ & _ & _ & _ & _ & Hres).
    exact Hres.
  - exact (proj1 (proj1 (create_targeting_intel_contract
                           [("competitor_name", JStr "Puma")]
                           (world_at false populated_db evening)) eq_refl)).
Defined.

(** C7 fails for [testDatabaseConnection]: on a store without the table
    [summary_metrics] the first count query reports an error, yet the probe
    answers connected, with no error message and with the count of the other
    table. *)
Theorem database_probe_connected_despite_error :
  run_query (count_query "summary_metrics") no_summary_db
  = Returned (failure "relation does not exist")
  /\ run_query (count_query "daily_metrics") no_summary_db
     = Returned (success JNull (Some 1%Z))
  /\ result (Api.testDatabaseConnection (world_at true no_summary_db evening))
     = Returned {| Api.connected := true;
                   Api.summaryCount := 0;
                   Api.dailyCount := 1;
                   Api.error := JUndefined |}.
Proof. repeat split. Qed.

(** The sibling probe does report the same failure of its count query. *)
Example targeting_probe_reports_count_error :
  result (TargetingIntel.testTargetingIntelConnection
            (world_at true (mkDb [] 0) evening))
  = Returned {| TargetingIntel.connected := false;
                TargetingIntel.recordCount := 0;
                TargetingIntel.latestRecord := None;
                TargetingIntel.error := JStr "relation does not exist" |}.
Proof. reflexivity. Qed.

(** C8 fails for [fetchDailyMetrics] without a date: two calls in a row on
    an unchanged store, the first late on 1 March and the second on 2 March,
    ask for different days and return different lists. *)
Lemma daily_metrics_differ_across_midnight :
  let first := Api.fetchDailyMetrics None (over_midnight populated_db) in
  let second := Api.fetchDailyMetrics None (after first) in
  store (after first) = store (over_midnight populated_db)
  /\ client_ready (after first) = client_ready (over_midnight populated_db)
  /\ result second = Returned []
  /\ result first <> result second.
Proof. repeat split. discriminate. Qed.

(** C8 as amended: the same two calls with the date given agree, and so do
    two lookups by name. *)
Lemma reads_repeatable_run :
  let first := Api.fetchDailyMetrics (Some "2024-03-01") (over_midnight populated_db) in
  let second := Api.fetchDailyMetrics (Some "2024-03-01") (after first) in
  result first = result second
  /\ result (TargetingIntel.fetchTargetingIntelByCompetitorName "Nike"
               (over_midnight populated_db))
     = result (TargetingIntel.fetchTargetingIntelByCompetitorName "Nike"
                 (world_at true populated_db midnight)).
Proof.
  split.
  - refine (proj1 (proj2 (reads_repeatable (over_midnight populated_db)
                            (after (Api.fetchDailyMetrics (Some "2024-03-01")
                                      (over_midnight populated_db)))
                            _ _)) (Some "2024-03-01") _);
      reflexivity.
  - refine (proj1 (proj2 (proj2 (proj2 (proj2
              (reads_repeatable (over_midnight populated_db)
                 (world_at true populated_db midnight) _ _))))) "Nike");
      reflexivity.
Defined.

(** C9 on rows of the store: both elements carry the two constants. *)
Example daily_cards_platform_and_status_run :
  exists cards,
    result (Api.fetchDailyMetrics (Some "2024-03-01")
              (world_at true populated_db evening))
    = Returned cards
    /\ map Api.platform cards = [JStr "Mixed"; JStr "Mixed"]
    /\ map Api.status cards = [JStr "ACTIVE"; JStr "ACTIVE"].
Proof. eexists. repeat split. Qed.

(** C10, at a gateway that counts three rows and refuses the latest-record
    query: the report stays connected, with the count and no latest record. *)
Lemma targeting_probe_tolerates_latest_failure_run :
  result (@TargetingIntel.testTargetingIntelConnection unit counts_only fixed_host
            counts_only_world)
  = Returned {| TargetingIntel.connected := true;
                TargetingIntel.recordCount := 3;
                TargetingIntel.latestRecord := None;
                TargetingIntel.error := JUndefined |}.
Proof.
  exact (proj1 (@targeting_probe_tolerates_latest_failure unit counts_only
                  fixed_host counts_only_world eq_refl)
           (success JNull (Some 3%Z)) (failure "permission denied")
           (mkError "permission denied") eq_refl eq_refl eq_refl eq_refl eq_refl).
Defined.

End Runs.

(* ===================================================================== *)
(** * Further properties of the two services *)
(* ===================================================================== *)

Section Services.
Context {Store : Type} {gw : Gateway Store} {host : Host}.

Lemma create_unavailable (input : list (string * JsVal)) (w : World Store) :
  client_ready w = false ->
  TargetingIntel.createTargetingIntel input w = (Returned JNull, w).
Proof.
  intros Hdown. unfold TargetingIntel.createTargetingIntel, bind.
  rewrite isSupabaseConnected_run, Hdown. reflexivity.
Qed.

Lemma database_probe_unavailable (w : World Store) :
  client_ready w = false ->
  Api.testDatabaseConnection w
  = (Returned (Api.mkDatabaseReport false 0 0 (JStr "Not connected to Supabase")),
     w).
Proof.
  intros Hdown. unfold Api.testDatabaseConnection, bind.
  rewrite isSupabaseConnected_run, Hdown. reflexivity.
Qed.

Lemma targeting_probe_unavailable (w : World Store) :
  client_ready w = false ->
  TargetingIntel.testTargetingIntelConnection w
  = (Returned (TargetingIntel.mkTargetingReport false 0 None
                 (JStr "Not connected to Supabase")),
     w).
Proof.
  intros Hdown. unfold TargetingIntel.testTargetingIntelConnection, bind.
  rewrite isSupabaseConnected_run, Hdown. reflexivity.
Qed.

(** X1. The six reads and the write never reject: in every world, and
    whatever the gateway does (an error reply, a thrown exception of any
    value, malformed rows), each resolves with a value.  The two probes
    resolve as well unless a query rejects with [null] or [undefined]; when
    their first query rejects so, the probe itself rejects, because its
    [catch] block reads [err.message]. *)
Theorem services_resolve_unless_rejected_with_nothing (w : World Store) :
  (exists v, result (Api.fetchSummaryMetrics w) = Returned v)
  /\ (forall date, exists v, result (Api.fetchDailyMetrics date w) = Returned v)
  /\ (exists v, result (TargetingIntel.fetchAllTargetingIntel w) = Returned v)
  /\ (forall competitorId, exists v,
        result (TargetingIntel.fetchTargetingIntelByCompetitorId competitorId w)
        = Returned v)
  /\ (forall competitorName, exists v,
        result (TargetingIntel.fetchTargetingIntelByCompetitorName competitorName w)
        = Returned v)
  /\ (exists v, result (TargetingIntel.fetchLatestTargetingIntel w) = Returned v)
  /\ (forall input, exists v,
        result (TargetingIntel.createTargetingIntel input w) = Returned v)
  /\ ((forall q, ~ threw_nothing (run_query q (store w))) ->
      (exists v, result (Api.testDatabaseConnection w) = Returned v)
      /\ (exists v,
            result (TargetingIntel.testTargetingIntelConnection w) = Returned v))
  /\ (client_ready w = true ->
      threw_nothing (run_query (count_query "summary_metrics") (store w)) ->
      exists err, result (Api.testDatabaseConnection w) = Threw err)
  /\ (client_ready w = true ->
      threw_nothing (run_query (count_query "targeting_intel") (store w)) ->
      exists err,
        result (TargetingIntel.testTargetingIntelConnection w) = Threw err).
Proof.
  assert (Hcaught : forall R (disconnected : JsVal -> R) q,
            ~ threw_nothing (run_query q (store w)) ->
            forall err, run_query q (store w) = Threw err ->
            exists v, probe_caught disconnected err = Returned v).
  { intros R disconnected q Hnot err Hrun. unfold probe_caught.
    rewrite Hrun in Hnot. cbn in Hnot.
    destruct (nullish err); [now contradiction Hnot | eexists; reflexivity]. }
  destruct (client_ready w) eqn:Hready.
  - rewrite (summary_run w Hready), (all_run w Hready), (latest_run w Hready),
      (database_probe_run w Hready), (targeting_probe_run w Hready).
    split; [eexists; reflexivity|].
    split; [intros date; rewrite (daily_run date w Hready); eexists; reflexivity|].
    split; [eexists; reflexivity|].
    split; [intros competitorId; rewrite (by_id_run _ w Hready);
            eexists; reflexivity|].
    split; [intros competitorName; rewrite (by_name_run _ w Hready);
            eexists; reflexivity|].
    split; [eexists; reflexivity|].
    split; [intros input; rewrite (create_run input w Hready);
            eexists; reflexivity|].
    split; [|split].
    + intros Hnot. unfold database_outcome, targeting_outcome. split.
      * destruct (run_query (count_query "summary_metrics") (store w))
          as [a|err] eqn:Hsummary;
          [|now apply (Hcaught _ _ _ (Hnot _) err Hsummary)].
        destruct (run_query (count_query "daily_metrics") (store w))
          as [b|err] eqn:Hdaily;
          [eexists; reflexivity|].
        now apply (Hcaught _ _ _ (Hnot _) err Hdaily).
      * destruct (run_query (count_query "targeting_intel") (store w))
          as [c|err] eqn:Hcount;
          [|now apply (Hcaught _ _ _ (Hnot _) err Hcount)].
        destruct (Gateway.error c); [eexists; reflexivity|].
        destruct (run_query TargetingIntel.latest_label_query (store w))
          as [l|err] eqn:Hlatest;
          [eexists; reflexivity|].
        now apply (Hcaught _ _ _ (Hnot _) err Hlatest).
    + intros _. unfold database_outcome, threw_nothing, probe_caught.
      destruct (run_query (count_query "summary_metrics") (store w)) as [a|err];
        [intros []|].
      intros ->. eexists; reflexivity.
    + intros _. unfold targeting_outcome, threw_nothing, probe_caught.
      destruct (run_query (count_query "targeting_intel") (store w)) as [c|err];
        [intros []|].
      intros ->. eexists; reflexivity.
  - destruct (unavailable_reads w Hready) as (-> & -> & Hid & Hname & ->).
    rewrite (database_probe_unavailable w Hready),
      (targeting_probe_unavailable w Hready).
    split; [eexists; reflexivity|].
    split; [intros date; rewrite (daily_unavailable date w Hready);
            eexists; reflexivity|].
    split; [eexists; reflexivity|].
    split; [intros competitorId; rewrite Hid; eexists; reflexivity|].
    split; [intros competitorName; rewrite Hname; eexists; reflexivity|].
    split; [eexists; reflexivity|].
    split; [intros input; rewrite (create_unavailable input w Hready);
            eexists; reflexivity|].
    split; [intros _; split; eexists; reflexivity|].
    split; intros Habs; discriminate Habs.
Qed.

(** X2. With the gateway available, each read issues exactly one gateway
    call, a query of its fixed shape, whether or not that query succeeds;
    there is no retry and no insert.  The date of the daily query is the one
    asked for. *)
Theorem available_reads_issue_one_query (w : World Store) :
  client_ready w = true ->
  calls (after (Api.fetchSummaryMetrics w))
  = (calls w ++ [CallQuery Api.summary_query])%list
  /\ (forall date,
        calls (after (Api.fetchDailyMetrics date w))
        = (calls w ++ [CallQuery (Api.daily_query (asked_date date w))])%list)
  /\ calls (after (TargetingIntel.fetchAllTargetingIntel w))
     = (calls w ++ [CallQuery TargetingIntel.all_query])%list
  /\ (forall competitorId,
        calls (after (TargetingIntel.fetchTargetingIntelByCompetitorId competitorId w))
        = (calls w ++ [CallQuery (TargetingIntel.by_id_query competitorId)])%list)
  /\ (forall competitorName,
        calls (after (TargetingIntel.fetchTargetingIntelByCompetitorName competitorName w))
        = (calls w ++ [CallQuery (TargetingIntel.by_name_query competitorName)])%list)
  /\ calls (after (TargetingIntel.fetchLatestTargetingIntel w))
     = (calls w ++ [CallQuery TargetingIntel.latest_query])%list.
Proof.
  intros Hready.
  rewrite (summary_run w Hready), (all_run w Hready), (latest_run w Hready).
  repeat split.
  - intros date. rewrite (daily_run date w Hready). cbn.
    now rewrite dated_calls.
  - intros competitorId. now rewrite (by_id_run _ w Hready).
  - intros competitorName. now rewrite (by_name_run _ w Hready).
Qed.

(** X3. With the gateway available, a read whose query throws or whose
    reply carries an error returns its fallback constant: the summary
    constant, the empty list, the one-element targeting list, or the
    targeting constant. *)
Theorem reads_fall_back_on_failure (w : World Store) :
  client_ready w = true ->
  (failed (run_query Api.summary_query (store w)) ->
     result (Api.fetchSummaryMetrics w) = Returned Api.mockSummaryMetrics)
  /\ (forall date,
        failed (run_query (Api.daily_query (asked_date date w)) (store w)) ->
        result (Api.fetchDailyMetrics date w) = Returned Api.mockDailyMetrics)
  /\ (failed (run_query TargetingIntel.all_query (store w)) ->
        result (TargetingIntel.fetchAllTargetingIntel w)
        = Returned (JArr [TargetingIntel.mockTargetingIntelData]))
  /\ (forall competitorId,
        failed (run_query (TargetingIntel.by_id_query competitorId) (store w)) ->
        result (TargetingIntel.fetchTargetingIntelByCompetitorId competitorId w)
        = Returned TargetingIntel.mockTargetingIntelData)
  /\ (forall competitorName,
        failed (run_query (TargetingIntel.by_name_query competitorName) (store w)) ->
        result (TargetingIntel.fetchTargetingIntelByCompetitorName competitorName w)
        = Returned TargetingIntel.mockTargetingIntelData)
  /\ (failed (run_query TargetingIntel.latest_query (store w)) ->
        result (TargetingIntel.fetchLatestTargetingIntel w)
        = Returned TargetingIntel.mockTargetingIntelData).
Proof.
  intros Hready.
  assert (Hsingle : forall q, failed (run_query q (store w)) ->
            single_read q w = TargetingIntel.mockTargetingIntelData).
  { intros q. unfold failed, single_read, single_value, is_error.
    destruct (run_query q (store w)) as [r|msg]; [|reflexivity].
    destruct (Gateway.error r); [reflexivity | intros H; now contradiction H]. }
  rewrite (summary_run w Hready), (all_run w Hready), (latest_run w Hready).
  unfold result. cbn [fst]. repeat split.
  - unfold failed, summary_value, is_error.
    destruct (run_query Api.summary_query (store w)) as [r|msg]; [|reflexivity].
    destruct (Gateway.error r); [reflexivity | intros H; now contradiction H].
  - intros date. rewrite (daily_run date w Hready). cbn [fst].
    unfold failed, daily_value, is_error.
    destruct (run_query _ (store w)) as [r|msg]; [|reflexivity].
    destruct (Gateway.error r); [reflexivity | intros H; now contradiction H].
  - unfold failed, all_value, is_error.
    destruct (run_query TargetingIntel.all_query (store w)) as [r|msg];
      [|reflexivity].
    destruct (Gateway.error r); [reflexivity | intros H; now contradiction H].
  - intros competitorId Hfail. rewrite (by_id_run _ w Hready). cbn [fst].
    now rewrite Hsingle.
  - intros competitorName Hfail. rewrite (by_name_run _ w Hready). cbn [fst].
    now rewrite Hsingle.
  - intros Hfail. now rewrite Hsingle.
Qed.

(** X4. With the gateway available, a reply without error and with an
    empty row list makes [fetchSummaryMetrics] return the summary constant
    and [fetchAllTargetingIntel] the one-element list of the targeting
    constant, while [fetchDailyMetrics] returns the empty list. *)
Theorem reads_on_empty_reply (w : World Store) :
  client_ready w = true ->
  (forall r,
     run_query Api.summary_query (store w) = Returned r ->
     Gateway.error r = None -> data r = JArr [] ->
     result (Api.fetchSummaryMetrics w) = Returned Api.mockSummaryMetrics)
  /\ (forall date r,
        run_query (Api.daily_query (asked_date date w)) (store w) = Returned r ->
        Gateway.error r = None -> data r = JArr [] ->
        result (Api.fetchDailyMetrics date w) = Returned [])
  /\ (forall r,
        run_query TargetingIntel.all_query (store w) = Returned r ->
        Gateway.error r = None -> data r = JArr [] ->
        result (TargetingIntel.fetchAllTargetingIntel w)
        = Returned (JArr [TargetingIntel.mockTargetingIntelData])).
Proof.
  intros Hready. repeat split.
  - intros r Hrun Herr Hdata. rewrite (summary_run w Hready), Hrun.
    unfold result, summary_value, is_error. cbn [fst].
    now rewrite Herr, Hdata.
  - intros date r Hrun Herr Hdata. rewrite (daily_run date w Hready), Hrun.
    unfold result, daily_value, is_error. cbn [fst].
    now rewrite Herr, Hdata.
  - intros r Hrun Herr Hdata. rewrite (all_run w Hready), Hrun.
    unfold result, all_value, is_error. cbn [fst].
    now rewrite Herr, Hdata.
Qed.

(** X5. [fetchAllTargetingIntel] never returns an empty list, [null] or
    [undefined]: in every world its value is truthy and its length is not
    zero. *)
Theorem all_targeting_never_empty (w : World Store) :
  exists v,
    result (TargetingIntel.fetchAllTargetingIntel w) = Returned v
    /\ truthy v = true
    /\ is_zero (js_length v) = false
    /\ v <> JArr [].
Proof.
  assert (Hmock : forall v, v = JArr [TargetingIntel.mockTargetingIntelData] ->
            truthy v = true /\ is_zero (js_length v) = false /\ v <> JArr []).
  { intros v ->. repeat split. discriminate. }
  destruct (client_ready w) eqn:Hready.
  - rewrite (all_run w Hready). eexists. split; [reflexivity|].
    unfold all_value.
    destruct (run_query TargetingIntel.all_query (store w)) as [r|msg];
      [|now apply Hmock].
    destruct (is_error r); [now apply Hmock|].
    destruct (truthy (data r)) eqn:Ht; cbn [negb orb]; [|now apply Hmock].
    destruct (is_zero (js_length (data r))) eqn:Hz; [now apply Hmock|].
    repeat split; try assumption.
    intros Heq. rewrite Heq in Hz. discriminate Hz.
  - destruct (unavailable_reads w Hready) as (_ & -> & _).
    eexists. split; [reflexivity|]. now apply Hmock.
Qed.

(** X6. [fetchLatestTargetingIntel] returns the fallback constant when the
    gateway is unavailable, when its query throws and when the reply carries
    an error; [null] when the reply carries neither error nor data; the
    record of the reply otherwise. *)
Theorem latest_outcomes (w : World Store) :
  (client_ready w = false ->
     result (TargetingIntel.fetchLatestTargetingIntel w)
     = Returned TargetingIntel.mockTargetingIntelData)
  /\ (client_ready w = true ->
      match run_query TargetingIntel.latest_query (store w) with
      | Threw _ =>
          result (TargetingIntel.fetchLatestTargetingIntel w)
          = Returned TargetingIntel.mockTargetingIntelData
      | Returned r =>
          match Gateway.error r with
          | Some _ =>
              result (TargetingIntel.fetchLatestTargetingIntel w)
              = Returned TargetingIntel.mockTargetingIntelData
          | None =>
              if truthy (data r)
              then result (TargetingIntel.fetchLatestTargetingIntel w)
                   = Returned (data r)
              else result (TargetingIntel.fetchLatestTargetingIntel w)
                   = Returned JNull
          end
      end).
Proof.
  split; intros Hready.
  - now destruct (unavailable_reads w Hready) as (_ & _ & _ & _ & ->).
  - rewrite (latest_run w Hready). unfold result, single_read. cbn [fst].
    destruct (run_query _ (store w)) as [r|msg]; [|reflexivity].
    unfold single_value, is_error.
    destruct (Gateway.error r); [reflexivity|].
    destruct (truthy (data r)); reflexivity.
Qed.

(** X7. With the gateway unavailable both probes report
    [connected = false], zero counts and the message
    ["Not connected to Supabase"], and issue no gateway call. *)
Theorem probes_when_unavailable (w : World Store) :
  client_ready w = false ->
  result (Api.testDatabaseConnection w)
  = Returned {| Api.connected := false; Api.summaryCount := 0;
                Api.dailyCount := 0;
                Api.error := JStr "Not connected to Supabase" |}
  /\ calls (after (Api.testDatabaseConnection w)) = calls w
  /\ result (TargetingIntel.testTargetingIntelConnection w)
     = Returned {| TargetingIntel.connected := false;
                   TargetingIntel.recordCount := 0;
                   TargetingIntel.latestRecord := None;
                   TargetingIntel.error := JStr "Not connected to Supabase" |}
  /\ calls (after (TargetingIntel.testTargetingIntelConnection w)) = calls w.
Proof.
  intros Hdown.
  rewrite (database_probe_unavailable w Hdown),
    (targeting_probe_unavailable w Hdown).
  repeat split.
Qed.

(** X8. In every report that either probe resolves with, a connected
    report carries no error field, and a disconnected report carries zero
    counts (and no latest record). *)
Theorem probe_reports_consistent (w : World Store) :
  (forall report,
     result (Api.testDatabaseConnection w) = Returned report ->
     (Api.connected report = true -> Api.error report = JUndefined)
     /\ (Api.connected report = false ->
         Api.summaryCount report = 0%Z /\ Api.dailyCount report = 0%Z))
  /\ (forall report,
        result (TargetingIntel.testTargetingIntelConnection w) = Returned report ->
        (TargetingIntel.connected report = true ->
         TargetingIntel.error report = JUndefined)
        /\ (TargetingIntel.connected report = false ->
            TargetingIntel.recordCount report = 0%Z
            /\ TargetingIntel.latestRecord report = None)).
Proof.
  destruct (client_ready w) eqn:Hready.
  - rewrite (database_probe_run w Hready), (targeting_probe_run w Hready).
    split; intros report.
    + unfold database_outcome.
      destruct (run_query (count_query "summary_metrics") (store w)) as [a|err];
        [destruct (run_query (count_query "daily_metrics") (store w)) as [b|err]|];
        try (unfold probe_caught; destruct (nullish err); [discriminate|];
             intros [= <-]; cbn; split; [discriminate | now split]).
      intros [= <-]. cbn. split; [reflexivity | discriminate].
    + unfold targeting_outcome.
      destruct (run_query (count_query "targeting_intel") (store w)) as [c|err];
        [destruct (Gateway.error c);
         [|destruct (run_query TargetingIntel.latest_label_query (store w))
             as [l|err]]|];
        try (unfold probe_caught; destruct (nullish err); [discriminate|];
             intros [= <-]; cbn; split; [discriminate | now split]).
      * intros [= <-]. cbn. split; [discriminate | now split].
      * intros [= <-]. cbn. split; [reflexivity | discriminate].
  - rewrite (database_probe_unavailable w Hready),
      (targeting_probe_unavailable w Hready).
    split; intros report [= <-]; cbn; (split; [discriminate | now split]).
Qed.

(** The world [testDatabaseConnection] leaves behind: the second count is
    issued only if the first did not throw. *)
Lemma database_probe_world (w : World Store) :
  client_ready w = true ->
  Api.testDatabaseConnection w
  = (database_outcome w,
     match run_query (count_query "summary_metrics") (store w) with
     | Threw _ => logged (count_query "summary_metrics") w
     | Returned _ =>
         logged (count_query "daily_metrics")
           (logged (count_query "summary_metrics") w)
     end).
Proof.
  intros Hup. unfold Api.testDatabaseConnection.
  unfold bind at 1. rewrite isSupabaseConnected_run, Hup. cbn [negb].
  unfold try_catch, database_outcome, logged.
  unfold bind at 1. unfold await_query at 1. cbn [store].
  destruct (run_query (count_query "summary_metrics") (store w)) as [a|err].
  - unfold bind at 1. unfold await_query at 1.
    cbn [store client_ready clock ticks calls].
    destruct (run_query (count_query "daily_metrics") (store w)) as [b|err].
    + now rewrite ?Hup.
    + rewrite (probe_caught_run (Api.mkDatabaseReport false 0 0)).
      now rewrite ?Hup.
  - rewrite (probe_caught_run (Api.mkDatabaseReport false 0 0)).
    now rewrite ?Hup.
Qed.

(** X9. [testDatabaseConnection] is all-or-nothing on exceptions: if the
    summary count throws, the daily count is never issued; if the daily count
    throws, the summary count already obtained is dropped.  In both cases the
    report is disconnected with zero counts and the [message] of the thrown
    value as its error, unless that value is [null] or [undefined]: then the
    probe rejects. *)
Theorem database_probe_on_exception (w : World Store) :
  client_ready w = true ->
  (forall err,
     run_query (count_query "summary_metrics") (store w) = Threw err ->
     (nullish err = false ->
      result (Api.testDatabaseConnection w)
      = Returned (Api.mkDatabaseReport false 0 0 (get_prop "message" err)))
     /\ (nullish err = true ->
         exists thrown, result (Api.testDatabaseConnection w) = Threw thrown)
     /\ calls (after (Api.testDatabaseConnection w))
        = (calls w ++ [CallQuery (count_query "summary_metrics")])%list)
  /\ (forall summary err,
        run_query (count_query "summary_metrics") (store w) = Returned summary ->
        run_query (count_query "daily_metrics") (store w) = Threw err ->
        (nullish err = false ->
         result (Api.testDatabaseConnection w)
         = Returned (Api.mkDatabaseReport false 0 0 (get_prop "message" err)))
        /\ (nullish err = true ->
            exists thrown, result (Api.testDatabaseConnection w) = Threw thrown)
        /\ calls (after (Api.testDatabaseConnection w))
           = (calls w ++ [CallQuery (count_query "summary_metrics");
                          CallQuery (count_query "daily_metrics")])%list).
Proof.
  intros Hready. rewrite (database_probe_world w Hready).
  unfold result, after, database_outcome, probe_caught. cbn [fst snd]. split.
  - intros err Hsummary. rewrite Hsummary.
    split; [now intros ->|]. split; [intros ->; eexists; reflexivity|].
    reflexivity.
  - intros summary err Hsummary Hdaily. rewrite Hsummary, Hdaily.
    split; [now intros ->|]. split; [intros ->; eexists; reflexivity|].
    unfold logged. cbn [calls]. now rewrite <- app_assoc.
Qed.

(** X10. With the gateway available, [createTargetingIntel] issues one
    call: an insert into [targeting_intel] of a single row.  That row holds
    every field of the input under its own key, except that [created_at] and
    [updated_at] are the client's clock readings even when the input brings
    its own. *)
Theorem create_sends_the_input_stamped (input : list (string * JsVal))
  (w : World Store) :
  client_ready w = true ->
  exists row,
    calls (after (TargetingIntel.createTargetingIntel input w))
    = (calls w ++ [CallInsert "targeting_intel" [row]])%list
    /\ (forall k,
          k <> "created_at" -> k <> "updated_at" ->
          get_prop k row = lookup k input)
    /\ get_prop "created_at" row = JStr (toISOString (clock w (ticks w)))
    /\ get_prop "updated_at" row = JStr (toISOString (clock w (S (ticks w)))).
Proof.
  intros Hready. rewrite (create_run input w Hready).
  exists (sent_row input w). unfold after. cbn [snd calls].
  split; [reflexivity|]. unfold sent_row. split.
  - intros k Hc Hu. now apply stamped_keeps_input.
  - apply stamped_timestamps.
Qed.

(** X11. One row that is [null] or [undefined] in the reply makes
    [fetchDailyMetrics] drop the whole reply and return the empty list, and
    so does data that is not an array; otherwise it returns one element per
    row, in the order of the reply. *)
Theorem daily_metrics_all_or_nothing (date : option string) (w : World Store)
  (r : Response) :
  client_ready w = true ->
  run_query (Api.daily_query (asked_date date w)) (store w) = Returned r ->
  Gateway.error r = None ->
  (forall rows,
     data r = JArr rows ->
     (existsb nullish rows = true ->
        result (Api.fetchDailyMetrics date w) = Returned [])
     /\ (existsb nullish rows = false ->
         exists cards,
           result (Api.fetchDailyMetrics date w) = Returned cards
           /\ List.length cards = List.length rows
           /\ map Api.id cards = map (get_prop "id") rows))
  /\ ((forall rows, data r <> JArr rows) ->
      result (Api.fetchDailyMetrics date w) = Returned []).
Proof.
  intros Hready Hrun Herr.
  rewrite (daily_run date w Hready), Hrun.
  unfold result, daily_value, is_error. cbn [fst]. rewrite Herr. cbn [orb].
  split.
  - intros rows Hdata. rewrite Hdata. cbn [truthy negb]. split.
    + intros Hbad. now rewrite Hbad.
    + intros Hgood. rewrite Hgood. eexists. split; [reflexivity|].
      split; [apply length_map|].
      rewrite map_map. reflexivity.
  - intros Hnot. destruct (negb (truthy (data r))); [reflexivity|].
    destruct (data r) as [ | |b|q|s0|rows|fs]; try reflexivity.
    now contradiction (Hnot rows).
Qed.

(** X12. The date [fetchDailyMetrics] queries: a non-empty argument is
    used as it is and the clock is not read; without an argument the query
    asks for the [YYYY-MM-DD] part of the current instant; the empty string
    behaves as no argument. *)
Theorem daily_metrics_date (w : World Store) :
  client_ready w = true ->
  (forall d,
     d <> "" ->
     calls (after (Api.fetchDailyMetrics (Some d) w))
     = (calls w ++ [CallQuery (Api.daily_query d)])%list
     /\ ticks (after (Api.fetchDailyMetrics (Some d) w)) = ticks w)
  /\ (year (clock w (ticks w)) < 10000 ->
      calls (after (Api.fetchDailyMetrics None w))
      = (calls w ++ [CallQuery (Api.daily_query (iso_date (clock w (ticks w))))])%list
      /\ ticks (after (Api.fetchDailyMetrics None w)) = S (ticks w))
  /\ Api.fetchDailyMetrics (Some "") w = Api.fetchDailyMetrics None w.
Proof.
  intros Hready. repeat split.
  - rewrite (daily_run (Some d) w Hready). unfold after, asked_date, dated.
    apply String.eqb_neq in H. now rewrite H.
  - rewrite (daily_run (Some d) w Hready). unfold after, asked_date, dated.
    apply String.eqb_neq in H. now rewrite H.
  - rewrite (daily_run None w Hready). unfold after, asked_date, dated.
    now rewrite (today_of_clock _ H).
  - rewrite (daily_run None w Hready). reflexivity.
Qed.

Lemma single_read_under_contract (q : Query) (w : World Store) :
  single_contract q w ->
  single_read q w <> JNull
  /\ (single_read q w = TargetingIntel.mockTargetingIntelData
      \/ exists r,
           run_query q (store w) = Returned r
           /\ Gateway.error r = None
           /\ single_read q w = data r).
Proof.
  assert (Hmock : TargetingIntel.mockTargetingIntelData <> JNull)
    by (unfold TargetingIntel.mockTargetingIntelData; discriminate).
  unfold single_contract, single_read, single_value, is_error.
  destruct (run_query q (store w)) as [r|err]; [|intros _; split; [exact Hmock | now left]].
  intros Hcontract. specialize (Hcontract r eq_refl).
  destruct (Gateway.error r) as [e|] eqn:Herr;
    [split; [exact Hmock | now left]|].
  specialize (Hcontract eq_refl). rewrite Hcontract. split.
  - intros Hnull. rewrite Hnull in Hcontract. discriminate Hcontract.
  - right. exists r. now repeat split.
Qed.

(** X23. Behind a gateway that honours the contract of a single-row fetch
    (a reply without error carries a record), none of the three
    single-record reads returns [null]: each returns the record of the reply
    or the fallback constant, so their branch [if (!data) return null] is
    never taken. *)
Theorem single_reads_never_null (w : World Store) :
  (forall competitorId,
     single_contract (TargetingIntel.by_id_query competitorId) w ->
     exists v,
       result (TargetingIntel.fetchTargetingIntelByCompetitorId competitorId w)
       = Returned v
       /\ v <> JNull
       /\ (v = TargetingIntel.mockTargetingIntelData
           \/ exists r,
                run_query (TargetingIntel.by_id_query competitorId) (store w)
                = Returned r
                /\ Gateway.error r = None /\ v = data r))
  /\ (forall competitorName,
        single_contract (TargetingIntel.by_name_query competitorName) w ->
        exists v,
          result (TargetingIntel.fetchTargetingIntelByCompetitorName competitorName w)
          = Returned v
          /\ v <> JNull
          /\ (v = TargetingIntel.mockTargetingIntelData
              \/ exists r,
                   run_query (TargetingIntel.by_name_query competitorName) (store w)
                   = Returned r
                   /\ Gateway.error r = None /\ v = data r))
  /\ (single_contract TargetingIntel.latest_query w ->
      exists v,
        result (TargetingIntel.fetchLatestTargetingIntel w) = Returned v
        /\ v <> JNull
        /\ (v = TargetingIntel.mockTargetingIntelData
            \/ exists r,
                 run_query TargetingIntel.latest_query (store w) = Returned r
                 /\ Gateway.error r = None /\ v = data r)).
Proof.
  assert (Hmock : TargetingIntel.mockTargetingIntelData <> JNull)
    by (unfold TargetingIntel.mockTargetingIntelData; discriminate).
  destruct (client_ready w) eqn:Hready.
  - split; [|split].
    + intros competitorId Hcontract. rewrite (by_id_run _ w Hready).
      eexists. split; [reflexivity|].
      now apply single_read_under_contract.
    + intros competitorName Hcontract. rewrite (by_name_run _ w Hready).
      eexists. split; [reflexivity|].
      now apply single_read_under_contract.
    + intros Hcontract. rewrite (latest_run w Hready).
      eexists. split; [reflexivity|].
      now apply single_read_under_contract.
  - destruct (unavailable_reads w Hready) as (_ & _ & Hid & Hname & Hlatest).
    split; [|split].
    + intros competitorId _. rewrite Hid. eexists.
      split; [reflexivity|]. split; [exact Hmock | now left].
    + intros competitorName _. rewrite Hname. eexists.
      split; [reflexivity|]. split; [exact Hmock | now left].
    + intros _. rewrite Hlatest. eexists.
      split; [reflexivity|]. split; [exact Hmock | now left].
Qed.

End Services.

(* ===================================================================== *)
(** * Properties of the components' data handlers *)
(* ===================================================================== *)

Section Components.
Context {Store : Type} {gw : Gateway Store} {host : Host}.

Lemma summary_resolves (w : World Store) :
  exists v w',
    Api.fetchSummaryMetrics w = (Returned v, w')
    /\ client_ready w' = client_ready w.
Proof.
  destruct (client_ready w) eqn:Hready.
  - rewrite (summary_run w Hready). eexists. eexists. split; [reflexivity|].
    exact Hready.
  - destruct (unavailable_reads w Hready) as (-> & _).
    eexists. eexists. split; [reflexivity | exact Hready].
Qed.

Lemma daily_resolves (date : option string) (w : World Store) :
  exists v w', Api.fetchDailyMetrics date w = (Returned v, w').
Proof.
  destruct (client_ready w) eqn:Hready.
  - rewrite (daily_run date w Hready). eexists. eexists. reflexivity.
  - rewrite (daily_unavailable date w Hready). eexists. eexists. reflexivity.
Qed.

(** X13. [loadData] of the surveillance page never takes its [catch]
    branch: it always ends with [loading] off, the summary set to what
    [fetchSummaryMetrics] returned and the feed set to what
    [fetchDailyMetrics], called without a date, returned; the connection
    status is left alone. *)
Theorem surveillance_load_data_settles (s : AdSurveillance.State)
  (w : World Store) :
  exists summary daily,
    result (Api.fetchSummaryMetrics w) = Returned summary
    /\ result (Api.fetchDailyMetrics None (after (Api.fetchSummaryMetrics w)))
       = Returned daily
    /\ result (AdSurveillance.loadData s w)
       = Returned (AdSurveillance.mkState summary daily false
                     (AdSurveillance.selectedPeriod s)
                     (AdSurveillance.dbStatus s)
                     (AdSurveillance.connectionInfo s)).
Proof.
  destruct (summary_resolves w) as (summary & w1 & Hsummary & _).
  destruct (daily_resolves None w1) as (daily & w2 & Hdaily).
  exists summary, daily.
  unfold AdSurveillance.loadData, try_catch, bind, result, after.
  rewrite Hsummary. cbn [fst snd]. rewrite Hdaily.
  repeat split.
Qed.

(** X14. [checkDatabaseStatus] follows the probe.  When
    [testDatabaseConnection] resolves with a report, the status becomes
    [connected] or [disconnected] as the report says, and the report is
    kept.  When the probe rejects, the handler rejects with the same value
    (it has no [catch]), and so does the effect run on mount, which then
    never loads the data.  With the gateway available and neither count
    query throwing, error replies included, the status is [connected]. *)
Theorem surveillance_status_follows_probe (s : AdSurveillance.State)
  (w : World Store) :
  (forall report,
     result (Api.testDatabaseConnection w) = Returned report ->
     result (AdSurveillance.checkDatabaseStatus s w)
     = Returned (AdSurveillance.mkState
                   (AdSurveillance.summaryData s)
                   (AdSurveillance.dailyMetrics s)
                   (AdSurveillance.loading s)
                   (AdSurveillance.selectedPeriod s)
                   (if Api.connected report
                    then AdSurveillance.connected
                    else AdSurveillance.disconnected)
                   (Some report)))
  /\ (forall err,
        result (Api.testDatabaseConnection w) = Threw err ->
        result (AdSurveillance.checkDatabaseStatus s w) = Threw err
        /\ result (AdSurveillance.initialize s w) = Threw err
        /\ calls (after (AdSurveillance.initialize s w))
           = calls (after (Api.testDatabaseConnection w)))
  /\ (client_ready w = true ->
      forall summary daily,
        run_query (count_query "summary_metrics") (store w) = Returned summary ->
        run_query (count_query "daily_metrics") (store w) = Returned daily ->
        exists report,
          result (AdSurveillance.checkDatabaseStatus s w)
          = Returned (AdSurveillance.mkState
                        (AdSurveillance.summaryData s)
                        (AdSurveillance.dailyMetrics s)
                        (AdSurveillance.loading s)
                        (AdSurveillance.selectedPeriod s)
                        AdSurveillance.connected
                        (Some report))
          /\ Api.summaryCount report = count_or_zero (count summary)
          /\ Api.dailyCount report = count_or_zero (count daily)).
Proof.
  split; [|split].
  - intros report.
    unfold AdSurveillance.checkDatabaseStatus, bind, result.
    destruct (Api.testDatabaseConnection w) as [[r|err] w']; cbn [fst];
      [|discriminate].
    now intros [= ->].
  - intros err.
    unfold AdSurveillance.initialize, AdSurveillance.checkDatabaseStatus,
      bind, result, after.
    destruct (Api.testDatabaseConnection w) as [[r|err'] w']; cbn [fst snd];
      [discriminate|].
    now intros [= ->].
  - intros Hready summary daily Hsummary Hdaily.
    unfold AdSurveillance.checkDatabaseStatus, bind, result.
    rewrite (database_probe_world w Hready). unfold database_outcome.
    rewrite Hsummary, Hdaily. cbn [fst].
    eexists. split; [reflexivity|]. split; reflexivity.
Qed.

(** X15. On a gateway that is unavailable, the effect the surveillance
    page runs on mount ends with the status [disconnected], the message
    ["Not connected to Supabase"], the summary constant, an empty feed and
    [loading] off, without a single gateway call. *)
Theorem surveillance_initialize_when_unavailable (s : AdSurveillance.State)
  (w : World Store) :
  client_ready w = false ->
  AdSurveillance.initialize s w
  = (Returned (AdSurveillance.mkState Api.mockSummaryMetrics [] false
                 (AdSurveillance.selectedPeriod s)
                 AdSurveillance.disconnected
                 (Some (Api.mkDatabaseReport false 0 0
                          (JStr "Not connected to Supabase")))),
     w).
Proof.
  intros Hdown.
  unfold AdSurveillance.initialize, AdSurveillance.checkDatabaseStatus,
    AdSurveillance.loadData, try_catch, bind.
  destruct (unavailable_reads w Hdown) as (Hsummary & _).
  rewrite (database_probe_unavailable w Hdown). unfold ret.
  cbv beta iota zeta. rewrite Hsummary. cbv beta iota zeta.
  rewrite (daily_unavailable None w Hdown). reflexivity.
Qed.

(** X16. Every element of the feed built by [fetchDailyMetrics] is drawn
    with the default platform chip: [getStatusColor] is applied to its
    [platform], which is always ["Mixed"], and the badge of its [status] is
    the one of ["ACTIVE"]. *)
Theorem feed_cards_classes (date : option string) (w : World Store) :
  exists cards,
    result (Api.fetchDailyMetrics date w) = Returned cards
    /\ forall card, In card cards ->
         AdSurveillance.getStatusColor (Api.platform card) = "bg-blue-500"
         /\ AdSurveillance.getStatusBadge (Api.status card)
            = "bg-green-100 text-green-800 border-green-200".
Proof.
  destruct (daily_returns_cards date w) as (cards & Hres & Hcards).
  exists cards. split; [exact Hres|].
  intros card Hin.
  destruct (Hcards card Hin) as (r & rows & row & _ & _ & _ & ->).
  split; reflexivity.
Qed.

(** X17. [loadData] of the targeting page never takes its [catch] branch:
    for every state it starts from it ends with [loading] off, [data] set to
    what [fetchLatestTargetingIntel] returned and the error message left as
    it was, and it touches the gateway only through that one read; with the
    gateway unavailable [data] is the fallback constant and no call is
    issued. *)
Theorem targeting_page_after_load (w : World Store) :
  exists v,
    result (TargetingIntel.fetchLatestTargetingIntel w) = Returned v
    /\ (forall s,
          result (TargetingIntelPage.loadData s w)
          = Returned (TargetingIntelPage.mkState v false
                        (TargetingIntelPage.error s))
          /\ after (TargetingIntelPage.loadData s w)
             = after (TargetingIntel.fetchLatestTargetingIntel w))
    /\ (client_ready w = false ->
        v = TargetingIntel.mockTargetingIntelData
        /\ calls (after (TargetingIntelPage.loadData TargetingIntelPage.initial w))
           = calls w).
Proof.
  assert (Hlatest : exists v w',
             TargetingIntel.fetchLatestTargetingIntel w = (Returned v, w')
             /\ (client_ready w = false ->
                 v = TargetingIntel.mockTargetingIntelData /\ calls w' = calls w)).
  { destruct (client_ready w) eqn:Hready.
    - rewrite (latest_run w Hready). eexists. eexists.
      split; [reflexivity | discriminate].
    - destruct (unavailable_reads w Hready) as (_ & _ & _ & _ & ->).
      eexists. eexists. split; [reflexivity|]. now split. }
  destruct Hlatest as (v & w' & Hrun & Hmock).
  exists v. unfold TargetingIntelPage.loadData, try_catch, bind, result, after.
  rewrite Hrun. cbn [fst snd]. split; [reflexivity|].
  split; [intros s; split; reflexivity | exact Hmock].
Qed.

(** X18. [isPeak] compares hour labels as strings: every label that
    starts with 7 or 8 counts as peak, morning or evening, and so does
    ["9am"]; a label that starts with 1 to 5 never does, nor does ["6am"]. *)
Theorem peak_hours_go_by_character_order :
  (forall rest,
     TargetingIntelPage.isPeak (String "7" rest) = true
     /\ TargetingIntelPage.isPeak (String "8" rest) = true)
  /\ (forall rest,
        TargetingIntelPage.isPeak (String "1" rest) = false
        /\ TargetingIntelPage.isPeak (String "2" rest) = false
        /\ TargetingIntelPage.isPeak (String "3" rest) = false
        /\ TargetingIntelPage.isPeak (String "4" rest) = false
        /\ TargetingIntelPage.isPeak (String "5" rest) = false)
  /\ TargetingIntelPage.isPeak "9am" = true
  /\ TargetingIntelPage.isPeak "6am" = false
  /\ TargetingIntelPage.isPeak "6pm" = true
  /\ TargetingIntelPage.isPeak "9pm" = true.
Proof. repeat split. Qed.

End Components.

(* ===================================================================== *)
(** * Writing and reading back over the in-memory store *)
(* ===================================================================== *)

Section StoreRoundTrip.
Context {host : Host}.

Lemma table_rows_with_row (name : string) (row : JsVal)
  (ts : list (string * list JsVal)) (rows : list JsVal) :
  table_rows name ts = Some rows ->
  table_rows name (with_row name row ts) = Some (rows ++ [row])%list.
Proof.
  induction ts as [|[n rs] ts IH]; cbn; [discriminate|].
  destruct (String.eqb name n) eqn:E; cbn; rewrite E.
  - now intros [= ->].
  - exact IH.
Qed.

(** What [createTargetingIntel] does on a store that has the table: the
    stamped input is stored under a fresh [id] and returned. *)
Lemma create_on_store (input : list (string * JsVal)) (w : World Db)
  (rows : list JsVal) :
  client_ready w = true ->
  table_rows "targeting_intel" (tables (store w)) = Some rows ->
  exists fields,
    sent_row input w = JObj fields
    /\ result (TargetingIntel.createTargetingIntel input w)
       = Returned (JObj (assign "id" (JStr (row_id (next_id (store w)))) fields))
    /\ client_ready (after (TargetingIntel.createTargetingIntel input w)) = true
    /\ table_rows "targeting_intel"
         (tables (store (after (TargetingIntel.createTargetingIntel input w))))
       = Some (rows ++ [JObj (assign "id" (JStr (row_id (next_id (store w))))
                               fields)])%list.
Proof.
  intros Hready Htable. rewrite (create_run input w Hready).
  unfold sent_row, TargetingIntel.stamped. eexists. split; [reflexivity|].
  change (run_insert "targeting_intel") with (insert "targeting_intel").
  unfold insert. rewrite Htable. cbn [fst snd result after store client_ready
    created_value success Gateway.error data nullish tables].
  split; [reflexivity|]. split; [exact Hready|].
  now apply table_rows_with_row.
Qed.

(** X19. Over the in-memory store: a record created by
    [createTargetingIntel] for a competitor that had none is what
    [fetchTargetingIntelByCompetitorId] returns next for that competitor's
    id; it carries the input's fields and the client's timestamps. *)
Theorem create_then_fetch_by_competitor_id (input : list (string * JsVal))
  (competitorId : string) (w : World Db) (rows : list JsVal) :
  client_ready w = true ->
  table_rows "targeting_intel" (tables (store w)) = Some rows ->
  lookup "competitor_id" input = JStr competitorId ->
  (forall row, In row rows -> passes (Eq "competitor_id" competitorId) row = false) ->
  exists created,
    result (TargetingIntel.createTargetingIntel input w) = Returned created
    /\ result (TargetingIntel.fetchTargetingIntelByCompetitorId competitorId
                 (after (TargetingIntel.createTargetingIntel input w)))
       = Returned created
    /\ (forall k,
          k <> "id" -> k <> "created_at" -> k <> "updated_at" ->
          get_prop k created = lookup k input)
    /\ get_prop "created_at" created = JStr (toISOString (clock w (ticks w))).
Proof.
  intros Hready Htable Hid Hfresh.
  destruct (create_on_store input w rows Hready Htable)
    as (fields & Hsent & Hres & Hready' & Htable').
  set (created := JObj (assign "id" (JStr (row_id (next_id (store w)))) fields))
    in *.
  assert (Hfields : forall k, k <> "id" -> lookup k fields = get_prop k (sent_row input w)).
  { intros k _. now rewrite Hsent. }
  assert (Hkeep : forall k, k <> "id" -> k <> "created_at" -> k <> "updated_at" ->
            get_prop k created = lookup k input).
  { intros k Hk Hc Hu. unfold created, get_prop.
    rewrite lookup_assign_other by exact Hk.
    rewrite (Hfields k Hk). unfold sent_row. now apply stamped_keeps_input. }
  exists created. split; [exact Hres|]. split; [|split; [exact Hkeep|]].
  - rewrite (by_id_run competitorId _ Hready').
    unfold result, single_read. cbn [fst].
    change (run_query (TargetingIntel.by_id_query competitorId))
      with (query (TargetingIntel.by_id_query competitorId)).
    unfold query. cbn [from TargetingIntel.by_id_query]. rewrite Htable'.
    cbn [head_count single]. unfold selected, limited, ordered.
    cbn [limit order filters TargetingIntel.by_id_query].
    rewrite filter_app, (filter_none _ rows).
    2:{ intros row Hin. rewrite passes_all_one. now apply Hfresh. }
    cbn [app filter]. rewrite passes_all_one.
    assert (Hpass : passes (Eq "competitor_id" competitorId) created = true).
    { unfold passes. rewrite Hkeep by discriminate. rewrite Hid.
      apply String.eqb_refl. }
    rewrite Hpass. reflexivity.
  - unfold created, get_prop. rewrite lookup_assign_other by discriminate.
    rewrite (Hfields "created_at") by discriminate. unfold sent_row.
    apply stamped_timestamps.
Qed.

(** X20. Over the in-memory store: every element [fetchDailyMetrics]
    returns for a non-empty date carries that date. *)
Theorem daily_metrics_only_for_the_date (d : string) (w : World Db) :
  d <> "" ->
  exists cards,
    result (Api.fetchDailyMetrics (Some d) w) = Returned cards
    /\ forall card, In card cards -> Api.date card = JStr d.
Proof.
  intros Hd.
  destruct (daily_returns_cards (Some d) w) as (cards & Hres & Hcards).
  exists cards. split; [exact Hres|].
  intros card Hin.
  destruct (Hcards card Hin) as (r & rows & row & Hrun & Hdata & Hrow & ->).
  assert (Hasked : asked_date (Some d) w = d).
  { unfold asked_date. apply String.eqb_neq in Hd. now rewrite Hd. }
  rewrite Hasked in Hrun.
  change (run_query (Api.daily_query d)) with (query (Api.daily_query d)) in Hrun.
  unfold query in Hrun. cbn [from Api.daily_query head_count single] in Hrun.
  destruct (table_rows "daily_metrics" (tables (store w))) as [stored|];
    injection Hrun as <-; cbn [data success failure] in Hdata;
    [|discriminate Hdata].
  injection Hdata as <-.
  apply selected_In in Hrow. destruct Hrow as [_ Hpass].
  cbn [filters Api.daily_query] in Hpass. rewrite passes_all_one in Hpass.
  unfold passes in Hpass. cbn [card_of Api.date].
  destruct (get_prop "date" row) as [ | |b|q|s0|l|fs]; try discriminate Hpass.
  apply String.eqb_eq in Hpass. now subst.
Qed.

End StoreRoundTrip.

(* ===================================================================== *)
(** * Concrete runs of the further properties *)
(* ===================================================================== *)

Section MoreRuns.
#[local] Existing Instance fixed_host.
Import Examples.

(** X2, on the populated store. *)
Lemma available_reads_issue_one_query_run :
  calls (after (Api.fetchSummaryMetrics (world_at true populated_db evening)))
  = [CallQuery Api.summary_query]
  /\ calls (after (TargetingIntel.fetchLatestTargetingIntel
                     (world_at true populated_db evening)))
     = [CallQuery TargetingIntel.latest_query].
Proof.
  destruct (available_reads_issue_one_query
              (world_at true populated_db evening) eq_refl)
    as (Hsummary & _ & _ & _ & _ & Hlatest).
  exact (conj Hsummary Hlatest).
Defined.

(** X3, behind a dead network and on a store without the summary table. *)
Lemma reads_fall_back_on_failure_run :
  result (@Api.fetchSummaryMetrics unit unreachable fixed_host counts_only_world)
  = Returned Api.mockSummaryMetrics
  /\ result (Api.fetchSummaryMetrics (world_at true no_summary_db evening))
     = Returned Api.mockSummaryMetrics.
Proof.
  split.
  - refine (proj1 (@reads_fall_back_on_failure unit unreachable fixed_host
                     counts_only_world _) _); [reflexivity | exact I].
  - refine (proj1 (reads_fall_back_on_failure
                     (world_at true no_summary_db evening) _) _);
      [reflexivity | discriminate].
Defined.

(** X4, on the empty store. *)
Lemma reads_on_empty_reply_run :
  result (Api.fetchSummaryMetrics (world_at true empty_db evening))
  = Returned Api.mockSummaryMetrics
  /\ result (TargetingIntel.fetchAllTargetingIntel (world_at true empty_db evening))
     = Returned (JArr [TargetingIntel.mockTargetingIntelData]).
Proof.
  split.
  - refine (proj1 (reads_on_empty_reply (world_at true empty_db evening) _)
              (success (JArr []) None) _ _ _); reflexivity.
  - refine (proj2 (proj2 (reads_on_empty_reply
                            (world_at true empty_db evening) _))
              (success (JArr []) None) _ _ _); reflexivity.
Defined.

(** X6, on the populated store (the latest record is the one created in
    February) and on the empty one, where the single-row fetch is answered
    with an error. *)
Lemma latest_outcomes_run :
  result (TargetingIntel.fetchLatestTargetingIntel
            (world_at true populated_db evening))
  = Returned adidas
  /\ result (TargetingIntel.fetchLatestTargetingIntel
               (world_at true empty_db evening))
     = Returned TargetingIntel.mockTargetingIntelData.
Proof.
  split.
  - exact (proj2 (latest_outcomes (world_at true populated_db evening)) eq_refl).
  - exact (proj2 (latest_outcomes (world_at true empty_db evening)) eq_refl).
Defined.

(** X7, at a world whose client was never constructed. *)
Lemma probes_when_unavailable_run :
  result (Api.testDatabaseConnection (world_at false populated_db evening))
  = Returned {| Api.connected := false; Api.summaryCount := 0;
                Api.dailyCount := 0;
                Api.error := JStr "Not connected to Supabase" |}
  /\ calls (after (Api.testDatabaseConnection
                     (world_at false populated_db evening))) = [].
Proof.
  destruct (probes_when_unavailable (world_at false populated_db evening) eq_refl)
    as (Hreport & Hcalls & _).
  exact (conj Hreport Hcalls).
Defined.

(** X9, behind a dead network: one call, then the report with the message
    of the error thrown; at a gateway that rejects with [undefined], the
    probe rejects. *)
Lemma database_probe_on_exception_run :
  result (@Api.testDatabaseConnection unit unreachable counts_only_world)
  = Returned (Api.mkDatabaseReport false 0 0 (JStr "Failed to fetch"))
  /\ calls (after (@Api.testDatabaseConnection unit unreachable counts_only_world))
     = [CallQuery (count_query "summary_metrics")]
  /\ exists thrown,
       result (@Api.testDatabaseConnection unit rejects_with_nothing
                 counts_only_world)
       = Threw thrown.
Proof.
  destruct (proj1 (@database_probe_on_exception unit unreachable
                     counts_only_world eq_refl)
              (js_error "Failed to fetch") eq_refl)
    as (Hreport & _ & Hcalls).
  destruct (proj1 (@database_probe_on_exception unit rejects_with_nothing
                     counts_only_world eq_refl)
              JUndefined eq_refl)
    as (_ & Hrejects & _).
  split; [exact (Hreport eq_refl)|]. split; [exact Hcalls|].
  exact (Hrejects eq_refl).
Defined.

(** X10, for an input that brings a [created_at] of its own. *)
Lemma create_sends_the_input_stamped_run :
  exists row,
    calls (after (TargetingIntel.createTargetingIntel
                    [("competitor_name", JStr "Puma");
                     ("created_at", JStr "1999-01-01")]
                    (world_at true populated_db evening)))
    = [CallInsert "targeting_intel" [row]]
    /\ get_prop "competitor_name" row = JStr "Puma"
    /\ get_prop "created_at" row = JStr "2024-03-01T23:59:59.999Z".
Proof.
  destruct (create_sends_the_input_stamped
              [("competitor_name", JStr "Puma"); ("created_at", JStr "1999-01-01")]
              (world_at true populated_db evening) eq_refl)
    as (row & Hcalls & Hkeep & Hcreated & _).
  exists row. split; [exact Hcalls|]. split; [|exact Hcreated].
  rewrite (Hkeep "competitor_name") by discriminate. reflexivity.
Defined.

(** X11, on the populated store: two rows, two elements. *)
Lemma daily_metrics_all_or_nothing_run :
  exists cards,
    result (Api.fetchDailyMetrics (Some "2024-03-01")
              (world_at true populated_db evening))
    = Returned cards
    /\ List.length cards = 2
    /\ map Api.id cards = [JStr "d-2"; JStr "d-1"].
Proof.
  refine (proj2 (proj1 (daily_metrics_all_or_nothing (Some "2024-03-01")
                          (world_at true populated_db evening)
                          (success (JArr [spend_missing; spend_five]) None)
                          _ _ _)
                   [spend_missing; spend_five] _) _);
    reflexivity.
Defined.

(** X12, with and without a date. *)
Lemma daily_metrics_date_run :
  calls (after (Api.fetchDailyMetrics (Some "2024-02-29")
                  (world_at true populated_db evening)))
  = [CallQuery (Api.daily_query "2024-02-29")]
  /\ calls (after (Api.fetchDailyMetrics None
                     (world_at true populated_db evening)))
     = [CallQuery (Api.daily_query "2024-03-01")].
Proof.
  pose proof (daily_metrics_date (world_at true populated_db evening) eq_refl)
    as (Hgiven & Htoday & _).
  split.
  - refine (proj1 (Hgiven "2024-02-29" _)). discriminate.
  - refine (proj1 (Htoday _)). cbn. lia.
Defined.

(** X15, from the initial state of the page. *)
Lemma surveillance_initialize_when_unavailable_run :
  result (AdSurveillance.initialize AdSurveillance.initial
            (world_at false populated_db evening))
  = Returned (AdSurveillance.mkState Api.mockSummaryMetrics [] false "7d"
                AdSurveillance.disconnected
                (Some (Api.mkDatabaseReport false 0 0
                         (JStr "Not connected to Supabase")))).
Proof.
  exact (f_equal fst (surveillance_initialize_when_unavailable
                        AdSurveillance.initial
                        (world_at false populated_db evening) eq_refl)).
Defined.

(** X19, for a competitor the populated store does not know yet. *)
Lemma create_then_fetch_by_competitor_id_run :
  exists created,
    result (TargetingIntel.createTargetingIntel
              [("competitor_id", JStr "c-3"); ("competitor_name", JStr "Puma")]
              (world_at true populated_db evening))
    = Returned created
    /\ result (TargetingIntel.fetchTargetingIntelByCompetitorId "c-3"
                 (after (TargetingIntel.createTargetingIntel
                           [("competitor_id", JStr "c-3");
                            ("competitor_name", JStr "Puma")]
                           (world_at true populated_db evening))))
       = Returned created
    /\ get_prop "competitor_name" created = JStr "Puma".
Proof.
  destruct (create_then_fetch_by_competitor_id
              [("competitor_id", JStr "c-3"); ("competitor_name", JStr "Puma")]
              "c-3" (world_at true populated_db evening)
              [adidas; nike_running] eq_refl eq_refl eq_refl)
    as (created & Hcreated & Hfetched & Hkeep & _).
  - intros row [<-|[<-|[]]]; reflexivity.
  - exists created. split; [exact Hcreated|]. split; [exact Hfetched|].
    rewrite (Hkeep "competitor_name") by discriminate. reflexivity.
Defined.

(** X20, on the populated store. *)
Lemma daily_metrics_only_for_the_date_run :
  exists cards,
    result (Api.fetchDailyMetrics (Some "2024-03-01")
              (world_at true populated_db evening))
    = Returned cards
    /\ forall card, In card cards -> Api.date card = JStr "2024-03-01".
Proof.
  refine (daily_metrics_only_for_the_date "2024-03-01"
            (world_at true populated_db evening) _).
  discriminate.
Defined.

(** X1, behind a dead network, where every request throws an error and
    the probe resolves, and at a gateway that rejects with [undefined],
    where the probe rejects while the read still resolves. *)
Lemma services_resolve_unless_rejected_with_nothing_run :
  (exists v,
     result (@Api.testDatabaseConnection unit unreachable counts_only_world)
     = Returned v)
  /\ (exists v,
        result (@Api.fetchSummaryMetrics unit rejects_with_nothing fixed_host
                  counts_only_world)
        = Returned v)
  /\ (exists err,
        result (@Api.testDatabaseConnection unit rejects_with_nothing
                  counts_only_world)
        = Threw err).
Proof.
  destruct (@services_resolve_unless_rejected_with_nothing unit unreachable
              fixed_host counts_only_world)
    as (_ & _ & _ & _ & _ & _ & _ & Hprobes & _).
  destruct (@services_resolve_unless_rejected_with_nothing unit
              rejects_with_nothing fixed_host counts_only_world)
    as (Hsummary & _ & _ & _ & _ & _ & _ & _ & Hrejects & _).
  split; [|split].
  - apply Hprobes. intros q Hnothing. discriminate Hnothing.
  - exact Hsummary.
  - apply Hrejects; reflexivity.
Defined.

(** X8, on a store without the table [summary_metrics]: the connected
    report carries no error field; on a store without any table the
    disconnected report of the targeting probe carries no count. *)
Lemma probe_reports_consistent_run :
  (exists report,
     result (Api.testDatabaseConnection (world_at true no_summary_db evening))
     = Returned report
     /\ Api.error report = JUndefined)
  /\ (exists report,
        result (TargetingIntel.testTargetingIntelConnection
                  (world_at true (mkDb [] 0) evening))
        = Returned report
        /\ TargetingIntel.recordCount report = 0%Z).
Proof.
  split.
  - eexists. split; [reflexivity|].
    refine (proj1 (proj1 (probe_reports_consistent
                            (world_at true no_summary_db evening)) _ _) _);
      reflexivity.
  - eexists. split; [reflexivity|].
    refine (proj1 (proj2 (proj2 (probe_reports_consistent
                                   (world_at true (mkDb [] 0) evening)) _ _) _));
      reflexivity.
Defined.

(** X14, at a gateway that rejects with [undefined]: the handler and the
    effect on mount reject; on a store without the table [summary_metrics]
    the status becomes [connected]. *)
Lemma surveillance_status_follows_probe_run :
  (exists err,
     result (@AdSurveillance.initialize unit rejects_with_nothing fixed_host
               AdSurveillance.initial counts_only_world)
     = Threw err
     /\ calls (after (@AdSurveillance.initialize unit rejects_with_nothing
                        fixed_host AdSurveillance.initial counts_only_world))
        = [CallQuery (count_query "summary_metrics")])
  /\ (exists report,
        result (AdSurveillance.checkDatabaseStatus AdSurveillance.initial
                  (world_at true no_summary_db evening))
        = Returned (AdSurveillance.mkState JNull [] true "7d"
                      AdSurveillance.connected (Some report))
        /\ Api.dailyCount report = 1%Z).
Proof.
  split.
  - eexists.
    refine (proj2 (proj1 (proj2 (@surveillance_status_follows_probe unit
                                   rejects_with_nothing fixed_host
                                   AdSurveillance.initial counts_only_world))
                     _ _));
      reflexivity.
  - destruct (proj2 (proj2 (surveillance_status_follows_probe
                              AdSurveillance.initial
                              (world_at true no_summary_db evening)))
                eq_refl (failure "relation does not exist")
                (success JNull (Some 1%Z)))
      as (report & Hstate & _ & Hdaily); [reflexivity | reflexivity |].
    exists report. split; [exact Hstate | exact Hdaily].
Defined.

(** X17, from the initial state of the page on the populated store. *)
Lemma targeting_page_after_load_run :
  exists v,
    result (TargetingIntelPage.loadData TargetingIntelPage.initial
              (world_at true populated_db evening))
    = Returned (TargetingIntelPage.mkState v false None)
    /\ v = adidas.
Proof.
  destruct (targeting_page_after_load (world_at true populated_db evening))
    as (v & Hlatest & Hload & _).
  exists v. split; [exact (proj1 (Hload TargetingIntelPage.initial))|].
  assert (Hrun : result (TargetingIntel.fetchLatestTargetingIntel
                           (world_at true populated_db evening))
                 = Returned adidas) by reflexivity.
  rewrite Hrun in Hlatest. now injection Hlatest.
Defined.

(** X23, on the populated store, whose replies honour the contract: the
    latest record and the record of competitor [c-2]. *)
Lemma single_reads_never_null_run :
  (exists v,
     result (TargetingIntel.fetchLatestTargetingIntel
               (world_at true populated_db evening))
     = Returned v
     /\ v <> JNull)
  /\ (exists v,
        result (TargetingIntel.fetchTargetingIntelByCompetitorId "c-2"
                  (world_at true populated_db evening))
        = Returned v
        /\ v <> JNull).
Proof.
  destruct (single_reads_never_null (world_at true populated_db evening))
    as (Hid & _ & Hlatest).
  split.
  - destruct Hlatest as (v & Hres & Hrecord & _).
    + intros r Hrun _.
      assert (Hreply : Returned (success adidas None) = Returned r)
        by exact Hrun.
      injection Hreply as <-. reflexivity.
    + exists v. split; [exact Hres | exact Hrecord].
  - destruct (Hid "c-2") as (v & Hres & Hrecord & _).
    + intros r Hrun _.
      assert (Hreply : Returned (success adidas None) = Returned r)
        by exact Hrun.
      injection Hreply as <-. reflexivity.
    + exists v. split; [exact Hres | exact Hrecord].
Defined.

End MoreRuns.
